(** * remind-backport.js: the backport reminder script

    A shallow embedding of [.github/scripts/remind-backport.js] and the
    properties of its pagination client, its per-candidate policy and its
    reminder composer.

    Conventions of the model.
    - JavaScript numbers are [num]: [NaN] or an integer.  Every number the
      script computes with is an integer (epoch milliseconds, day counts,
      parsed decimal strings) or NaN; the limits of double precision are
      outside the model.
    - Strings are [string]; a character is a code unit below 256.
    - A [Date] is its epoch time in milliseconds; [created_at] fields are
      the values [new Date(x.created_at)] yields for the API's timestamps.
    - The asynchronous code runs sequentially ([await] at every call), so
      it is modelled in a state-and-exception monad over a [World] that
      holds the clock and the trace of requests, log lines and sleeps.
    - The remote API, the [Number] conversion of header text and the timer
      behind [setTimeout] are the [Host]: oracles the script runs against.
      Every request is answered; the headers of a request are the same for
      all requests and are left out. *)

From Stdlib Require Import ZArith Bool Lia.
From Stdlib Require Import Ascii String DecimalString DecimalPos DecimalFacts.
From Stdlib Require Import List Sorted Permutation.
Import ListNotations.
Local Open Scope string_scope.
Local Open Scope list_scope.
Local Open Scope Z_scope.

(** String concatenation, written apart from list concatenation. *)
Infix "+++" := String.append (right associativity, at level 60).

(** ** JavaScript values used by the script *)

Module JS.

(** A number: NaN or an integer. *)
Inductive num : Type :=
| NaN
| Num (z : Z).

(** [a < b] on numbers: false as soon as one side is NaN. *)
Definition lt (a b : num) : bool :=
  match a, b with
  | Num x, Num y => x <? y
  | _, _ => false
  end.

(** [a * b], [a - b], [a + b] and [Math.max(a, b)]: NaN is absorbing. *)
Definition lift2 (f : Z -> Z -> Z) (a b : num) : num :=
  match a, b with
  | Num x, Num y => Num (f x y)
  | _, _ => NaN
  end.

Definition mul := lift2 Z.mul.
Definition sub := lift2 Z.sub.
Definition add := lift2 Z.add.
Definition max := lift2 Z.max.

(** [String(z)] for an integer. *)
Definition show (z : Z) : string := NilZero.string_of_int (Z.to_int z).

(** [String(n)] for a number. *)
Definition show_num (n : num) : string :=
  match n with
  | NaN => "NaN"
  | Num z => show z
  end.

(** [x || d] on an optional string: [undefined], [null] and the empty
    string are falsy. *)
Definition or_default (x : option string) (d : string) : string :=
  match x with
  | Some (String c s) => String c s
  | _ => d
  end.

(** Truthiness of an optional string. *)
Definition truthy (x : option string) : bool :=
  match x with
  | Some (String _ _) => true
  | _ => false
  end.

(** White space as [parseInt] skips it (code units below 256): TAB, LF, VT,
    FF, CR, SP and NBSP. *)
Definition is_space (c : ascii) : bool :=
  let n := N_of_ascii c in
  ((9 <=? n) && (n <=? 13) || (n =? 32) || (n =? 160))%N.

Definition digit_of (c : ascii) : option Z :=
  let n := Z.of_N (N_of_ascii c) in
  if (48 <=? n) && (n <=? 57) then Some (n - 48) else None.

Fixpoint skip_spaces (s : string) : string :=
  match s with
  | String c r => if is_space c then skip_spaces r else s
  | EmptyString => s
  end.

(** The longest prefix of decimal digits, read with accumulator [acc];
    [seen] tells whether a digit was read. *)
Fixpoint digits (s : string) (seen : bool) (acc : Z) : option Z :=
  match s with
  | String c r =>
      match digit_of c with
      | Some d => digits r true (10 * acc + d)
      | None => if seen then Some acc else None
      end
  | EmptyString => if seen then Some acc else None
  end.

(** [parseInt(s, 10)]: leading white space, an optional sign, then the
    longest run of decimal digits; NaN when there is no digit. *)
Definition parseInt (s : string) : num :=
  let s1 := skip_spaces s in
  let '(sign, s2) :=
    match s1 with
    | String "-" r => (-1, r)
    | String "+" r => (1, r)
    | _ => (1, s1)
    end in
  match digits s2 false 0 with
  | Some v => Num (sign * v)
  | None => NaN
  end.

(** [s.startsWith(p)]. *)
Fixpoint starts_with (p s : string) : bool :=
  match p, s with
  | EmptyString, _ => true
  | String a p', String b s' => Ascii.eqb a b && starts_with p' s'
  | String _ _, EmptyString => false
  end.

(** [s.includes(sub)]. *)
Fixpoint includes (s sub : string) : bool :=
  starts_with sub s ||
  match s with
  | String _ r => includes r sub
  | EmptyString => false
  end.

(** [s.split(sep)] for a one-character separator. *)
Fixpoint split (sep : ascii) (s : string) : list string :=
  match s with
  | EmptyString => [EmptyString]
  | String c r =>
      if Ascii.eqb c sep then EmptyString :: split sep r
      else match split sep r with
           | h :: t => String c h :: t
           | [] => [String c EmptyString]
           end
  end.

(** [a.join(sep)]. *)
Fixpoint join (sep : string) (l : list string) : string :=
  match l with
  | [] => ""
  | [x] => x
  | x :: r => x +++ sep +++ join sep r
  end.

(** [a.sort(cmp)]: the sort is stable, so for a consistent comparator the
    result is the one of a stable insertion sort.  [le x y] stands for
    [cmp(x, y) <= 0]: [x] may stay in front of [y]. *)
Section Sort.
Context {A : Type} (le : A -> A -> bool).

Fixpoint insert (x : A) (l : list A) : list A :=
  match l with
  | [] => [x]
  | y :: r => if le x y then x :: y :: r else y :: insert x r
  end.

Fixpoint sort (l : list A) : list A :=
  match l with
  | [] => []
  | x :: r => insert x (sort r)
  end.

End Sort.

End JS.


(** ** Data model: what the API serves and what the script reads of it *)

(** The [user] object of an issue or a comment. *)
Record User : Type := {
  user_type : option string;       (* user.type *)
  user_login : option string       (* user.login *)
}.

(** A JSON object of the API, as the properties the script reads; a property
    an object does not have is [None] (or [false] for the truthiness of
    [pull_request]). *)
Record resource : Type := {
  pull_request : bool;                       (* issue.pull_request is truthy *)
  number : Z;                                (* issue.number *)
  user : option User;                        (* issue.user, comment.user *)
  body : option string;                      (* comment.body *)
  created_at : Z;                            (* new Date(x.created_at), in ms *)
  event : option string;                     (* event.event *)
  label_name : option string;                (* event.label?.name *)
  base_ref : option string;                  (* pr.base?.ref *)
  base_owner : string;                       (* pr.base.repo.owner.login *)
  requested_reviewers : option (list string);  (* logins of pr.requested_reviewers *)
  requested_teams : option (list string)       (* slugs of pr.requested_teams *)
}.

(** An object with none of these properties. *)
Definition blank : resource :=
  {| pull_request := false; number := 0; user := None; body := None;
     created_at := 0; event := None; label_name := None; base_ref := None;
     base_owner := ""; requested_reviewers := None; requested_teams := None |}.

(** A parsed response body. *)
Inductive json : Type :=
| JNull
| JScalar                           (* a boolean, a number or a string *)
| JArray (items : list resource)
| JObject (o : resource).

(** A request: the method, the path and, for a GET, the query parameters
    in the order of the query string; for a POST, the comment body that is
    sent as [JSON.stringify({ body })]. *)
Inductive request : Type :=
| GET (path : string) (query : list (string * string))
| POST (path : string) (comment : string).

Record response : Type := {
  status : Z;                               (* res.status *)
  ratelimit_remaining : option string;      (* res.headers.get("x-ratelimit-remaining") *)
  ratelimit_reset : option string;          (* res.headers.get("x-ratelimit-reset") *)
  text : string;                            (* res.text() *)
  parsed : option json                      (* res.json(); None when the text is not JSON *)
}.

(** [res.ok]. *)
Definition ok (res : response) : bool :=
  (200 <=? status res) && (status res <=? 299).

(** What the script does to the outside, in order. *)
Inductive event_ : Type :=
| Requested (r : request)
| Slept (ms : JS.num)
| Logged (line : string)            (* console.log *)
| Errored (line : string).          (* console.error *)

Record World : Type := {
  clock : Z;                        (* Date.now() *)
  trace : list event_
}.

(** The environment the script runs against: the remote API answers a
    request knowing the time and everything done so far; [to_number] is
    [Number(text)]; [timer ms] is the time that passes during
    [setTimeout(r, ms)]. *)
Record Host : Type := {
  respond : World -> request -> response;
  to_number : string -> JS.num;
  timer : JS.num -> Z
}.

(** What a rejected promise carries. *)
Inductive exn : Type :=
| Error (message : string)          (* new Error(message) *)
| SyntaxError                       (* res.json() on a body that is not JSON *)
| TypeError.                        (* a property read on null *)

Definition show_exn (e : exn) : string :=
  match e with
  | Error m => "Error: " +++ m
  | SyntaxError => "SyntaxError"
  | TypeError => "TypeError"
  end.

(** ** The monad of the script: state, exceptions and fuel for [while (true)] *)

Inductive result (A : Type) : Type :=
| Ret (a : A)
| Throw (e : exn)
| OutOfFuel.

Arguments Ret {A} a.
Arguments Throw {A} e.
Arguments OutOfFuel {A}.

Definition M (A : Type) : Type := World -> result A * World.

Definition ret {A} (a : A) : M A := fun w => (Ret a, w).

Definition throw {A} (e : exn) : M A := fun w => (Throw e, w).

Definition out_of_fuel {A} : M A := fun w => (OutOfFuel, w).

Definition bind {A B} (m : M A) (k : A -> M B) : M B :=
  fun w =>
    match m w with
    | (Ret a, w') => k a w'
    | (Throw e, w') => (Throw e, w')
    | (OutOfFuel, w') => (OutOfFuel, w')
    end.

Notation "x <- m ;; k" := (bind m (fun x => k))
  (at level 100, m at next level, right associativity).
Notation "m ;; k" := (bind m (fun _ => k))
  (at level 100, right associativity).

(** The world once [e] has happened. *)
Definition note (e : event_) (w : World) : World :=
  {| clock := clock w; trace := trace w ++ [e] |}.

Definition emit (e : event_) : M unit := fun w => (Ret tt, note e w).

(** [console.log(line)]. *)
Definition log (line : string) : M unit := emit (Logged line).

(** [Date.now()] and [new Date()]. *)
Definition Date_now : M Z := fun w => (Ret (clock w), w).

(** ** Configuration (lines 4-22 of the script) *)

Record Config : Type := {
  TOKEN : string;
  LABEL_NAME : string;
  TARGET_BRANCH : string;
  AFTER_DAYS : JS.num;
  EVERY_DAYS : JS.num;
  MARKER : string;
  OWNER : string;
  REPO : string
}.

(** [process.env]: the value of a variable, [None] when it is not set. *)
Definition Env : Type := string -> option string.

(** The first two elements of [(GITHUB_REPOSITORY || "").split("/")]. *)
Definition owner_repo (env : Env) : option string * option string :=
  match JS.split "/" (JS.or_default (env "GITHUB_REPOSITORY") "") with
  | o :: r :: _ => (Some o, Some r)
  | [o] => (Some o, None)
  | [] => (None, None)
  end.

(** The top of the script: the constants read from the environment, or the
    message printed before [process.exit(1)]. *)
Definition load_config (env : Env) : Config + string :=
  if negb (JS.truthy (env "GITHUB_TOKEN")) then inr "Missing GITHUB_TOKEN"
  else
    let '(o, r) := owner_repo env in
    if negb (JS.truthy o) || negb (JS.truthy r)
    then inr "Cannot parse OWNER/REPO from GITHUB_REPOSITORY"
    else inl {|
      TOKEN := JS.or_default (env "GITHUB_TOKEN") "";
      LABEL_NAME := JS.or_default (env "LABEL_NAME") "backport-pending";
      TARGET_BRANCH := JS.or_default (env "TARGET_BRANCH") "master";
      AFTER_DAYS := JS.parseInt (JS.or_default (env "REMIND_AFTER_DAYS") "7");
      EVERY_DAYS := JS.parseInt (JS.or_default (env "REMIND_EVERY_DAYS") "7");
      MARKER := JS.or_default (env "MARKER") "[backport-pending-reminder]";
      OWNER := JS.or_default o "";
      REPO := JS.or_default r ""
    |}.

(** ** The API client (lines 24-90) *)

(** [daysBetween(a, b)]: whole units of five minutes from [b] to [a]. *)
Definition unit_ms : Z := 1000 * 60 * 5.

Definition daysBetween (a b : Z) : Z := (a - b) / unit_ms.

(** [qp.set(k, v)], and the spread of one parameter into the object the
    query is built from: the value replaces the one of an existing key in
    place, a new key goes last. *)
Fixpoint set_param (k v : string) (q : list (string * string)) : list (string * string) :=
  match q with
  | [] => [(k, v)]
  | (k', v') :: r => if String.eqb k' k then (k, v) :: r else (k', v') :: set_param k v r
  end.

(** [new URLSearchParams({ per_page: "100", ...params })]. *)
Definition query_of (params : list (string * string)) : list (string * string) :=
  fold_left (fun q kv => set_param (fst kv) (snd kv) q) params [("per_page", "100")].

(** [x === s] for an optional string [x]. *)
Definition is_string (x : option string) (s : string) : bool :=
  match x with
  | Some y => String.eqb y s
  | None => false
  end.

(** The rate-limit signal: status 403 with no quota left. *)
Definition rate_limited (res : response) : bool :=
  (status res =? 403) && is_string (ratelimit_remaining res) "0".

(** The verdict on one candidate: the [continue] that ended its turn of the
    loop, or the reminder posted. *)
Inductive verdict : Type :=
| NotPullRequest
| WrongBase
| NoLabeledEvent
| TooYoung (ageDays : Z)
| RemindedRecently (since : Z)
| Posted (ageDays : Z).

Definition newline : string := String (ascii_of_nat 10) "".

Section Script.

Variable h : Host.
Variable cfg : Config.

(** [api(path, opts)]: the request goes out and the response comes back. *)
Definition api (req : request) : M response :=
  fun w => (Ret (respond h w req), note (Requested req) w).

(** [sleep(ms)]. *)
Definition sleep (ms : JS.num) : M unit :=
  fun w => (Ret tt,
            {| clock := clock w + timer h ms; trace := trace w ++ [Slept ms] |}).

(** [res.json()]. *)
Definition res_json (res : response) : M json :=
  match parsed res with
  | Some j => ret j
  | None => throw SyntaxError
  end.

(** The time to sleep on a rate-limit response received at [now]. *)
Definition waitMs_of (res : response) (now : Z) : JS.num :=
  let reset :=
    JS.mul (to_number h (JS.or_default (ratelimit_reset res) "0")) (JS.Num 1000) in
  JS.add (JS.max (JS.Num 0) (JS.sub reset (JS.Num now))) (JS.Num 1000).

(** The loop of [paginate], from the state ([page], [results]); one unit of
    fuel per turn. *)
Fixpoint paginate_loop (fuel : nat) (path : string) (qp : list (string * string))
    (page : Z) (results : list resource) : M (list resource) :=
  match fuel with
  | O => out_of_fuel
  | S fuel' =>
      let qp := set_param "page" (JS.show page) qp in
      res <- api (GET path qp) ;;
      if rate_limited res then
        now <- Date_now ;;
        let waitMs := waitMs_of res now in
        log ("Rate-limited. Sleeping " +++ JS.show_num waitMs +++ "ms...") ;;
        sleep waitMs ;;
        paginate_loop fuel' path qp page results
      else if negb (ok res) then
        throw (Error ("GET " +++ path +++ " failed: "
                      +++ JS.show (status res) +++ " " +++ text res))
      else
        data <- res_json res ;;
        match data with
        | JArray ((_ :: _) as items) =>
            let results := results ++ items in
            if (Z.of_nat (length items) <? 100) then ret results
            else paginate_loop fuel' path qp (page + 1) results
        | _ => ret results
        end
  end.

Definition paginate (fuel : nat) (path : string) (params : list (string * string))
    : M (list resource) :=
  paginate_loop fuel path (query_of params) 1 [].

Definition repo_path : string := "/repos/" +++ OWNER cfg +++ "/" +++ REPO cfg.

Definition listOpenIssuesWithLabel (fuel : nat) (label : string) : M (list resource) :=
  paginate fuel (repo_path +++ "/issues") [("state", "open"); ("labels", label)].

Definition getPull (pull_number : Z) : M json :=
  res <- api (GET (repo_path +++ "/pulls/" +++ JS.show pull_number) []) ;;
  if negb (ok res) then
    throw (Error ("GET pull " +++ JS.show pull_number +++ " failed: "
                  +++ JS.show (status res) +++ " " +++ text res))
  else res_json res.

Definition listIssueEvents (fuel : nat) (n : Z) : M (list resource) :=
  paginate fuel (repo_path +++ "/issues/" +++ JS.show n +++ "/events") [].

Definition listComments (fuel : nat) (n : Z) : M (list resource) :=
  paginate fuel (repo_path +++ "/issues/" +++ JS.show n +++ "/comments") [].

Definition createComment (n : Z) (comment : string) : M json :=
  res <- api (POST (repo_path +++ "/issues/" +++ JS.show n +++ "/comments") comment) ;;
  if negb (ok res) then
    throw (Error ("POST comment on #" +++ JS.show n +++ " failed: "
                  +++ JS.show (status res) +++ " " +++ text res))
  else res_json res.

(** ** The run (lines 92-175) *)

(** [x] printed in a template string. *)
Definition show_opt (x : option string) : string :=
  match x with
  | Some s => s
  | None => "undefined"
  end.

(** The object [pr] whose properties are read: reading [pr.base] throws on
    null and gives [undefined] on a value that is not an object. *)
Definition pr_object (pr : json) : M resource :=
  match pr with
  | JNull => throw TypeError
  | JObject o => ret o
  | JScalar | JArray _ => ret blank
  end.

(** [(a, b) => new Date(b.created_at) - new Date(a.created_at)] is at most
    zero: [a] is not older than [b]. *)
Definition newest_first (a b : resource) : bool := created_at b <=? created_at a.

(** [e.event === "labeled" && e.label?.name === LABEL_NAME]. *)
Definition is_labeled (e : resource) : bool :=
  is_string (event e) "labeled" && is_string (label_name e) (LABEL_NAME cfg).

Definition labeledEvents_of (events : list resource) : list resource :=
  JS.sort newest_first (filter is_labeled events).

(** [x?.includes(s)], [undefined] counting as false. *)
Definition opt_includes (x : option string) (s : string) : bool :=
  match x with
  | Some y => JS.includes y s
  | None => false
  end.

Definition login_of (u : option User) : option string :=
  match u with
  | Some u => user_login u
  | None => None
  end.

Definition type_of (u : option User) : option string :=
  match u with
  | Some u => user_type u
  | None => None
  end.

(** [(c.user?.type === "Bot" || c.user?.login?.includes("github-actions"))
     && c.body?.includes(MARKER)]. *)
Definition is_ours (c : resource) : bool :=
  (is_string (type_of (user c)) "Bot"
   || opt_includes (login_of (user c)) "github-actions")
  && opt_includes (body c) (MARKER cfg).

Definition ourRecent_of (comments : list resource) : list resource :=
  JS.sort newest_first (filter is_ours comments).

(** [issue.user?.login ? `@${issue.user.login}` : ""]. *)
Definition author_of (issue : resource) : string :=
  if JS.truthy (login_of (user issue))
  then "@" +++ JS.or_default (login_of (user issue)) ""
  else "".

(** [pr.requested_reviewers?.map(u => `@${u.login}`) || []]. *)
Definition requestedUsers_of (pr : resource) : list string :=
  match requested_reviewers pr with
  | Some us => map (fun login => "@" +++ login) us
  | None => []
  end.

(** [pr.requested_teams?.map(t => `@${pr.base.repo.owner.login}/${t.slug}`) || []]. *)
Definition requestedTeams_of (pr : resource) : list string :=
  match requested_teams pr with
  | Some ts => map (fun slug => "@" +++ base_owner pr +++ "/" +++ slug) ts
  | None => []
  end.

(** [Boolean(s)] for a string. *)
Definition nonempty (s : string) : bool :=
  match s with
  | EmptyString => false
  | String _ _ => true
  end.

(** [[author, ...requestedUsers, ...requestedTeams].filter(Boolean)]: the
    mentions before they are joined. *)
Definition mention_list (issue pr : resource) : list string :=
  filter nonempty (author_of issue :: requestedUsers_of pr ++ requestedTeams_of pr).

Definition mentions_of (issue pr : resource) : string :=
  JS.join " " (mention_list issue pr).

(** The reminder body. *)
Definition body_of (mentions : string) (ageDays : Z) : string :=
  MARKER cfg +++ newline
  +++ mentions +++ newline
  +++ newline
  +++ "This pull request targets `" +++ TARGET_BRANCH cfg +++ "` and has the `"
  +++ LABEL_NAME cfg +++ "` label for **" +++ JS.show ageDays +++ " days**." +++ newline
  +++ "Please review next steps for backporting (or remove the label if no longer needed)."
  +++ newline
  +++ newline
  +++ "- Threshold: `" +++ JS.show_num (AFTER_DAYS cfg) +++ "d`" +++ newline
  +++ "- Re-reminder interval: `" +++ JS.show_num (EVERY_DAYS cfg) +++ "d`" +++ newline.

(** The last steps of a turn: compose, post, log, pause. *)
Definition remind (issue pr : resource) (ageDays : Z) : M verdict :=
  createComment (number issue) (body_of (mentions_of issue pr) ageDays) ;;
  log ("#" +++ JS.show (number issue) +++ ": posted reminder (age "
       +++ JS.show ageDays +++ "d).") ;;
  sleep (JS.Num 200) ;;
  ret (Posted ageDays).

(** The end of a turn, from the comments on: no reminder within the
    interval. *)
Definition check_reminders (fuel : nat) (now : Z) (issue pr : resource) (ageDays : Z)
    : M verdict :=
  let n := number issue in
  comments <- listComments fuel n ;;
  match ourRecent_of comments with
  | last :: _ =>
      let since := daysBetween now (created_at last) in
      if JS.lt (JS.Num since) (EVERY_DAYS cfg) then
        log ("#" +++ JS.show n +++ ": reminded " +++ JS.show since
             +++ "d ago (< " +++ JS.show_num (EVERY_DAYS cfg)
             +++ "d), skipping.") ;;
        ret (RemindedRecently since)
      else remind issue pr ageDays
  | [] => remind issue pr ageDays
  end.

(** The turn once the events are there: the last time the label was
    applied, and its age. *)
Definition check_age (fuel : nat) (now : Z) (issue pr : resource)
    (events : list resource) : M verdict :=
  let n := number issue in
  match labeledEvents_of events with
  | [] =>
      log ("#" +++ JS.show n
           +++ ": no labeled event found (label may be pre-existing), skipping.") ;;
      ret NoLabeledEvent
  | latest :: _ =>
      let labeledAt := created_at latest in
      let ageDays := daysBetween now labeledAt in
      if JS.lt (JS.Num ageDays) (AFTER_DAYS cfg) then
        log ("#" +++ JS.show n +++ ": label age " +++ JS.show ageDays +++ "d < "
             +++ JS.show_num (AFTER_DAYS cfg) +++ "d, skipping.") ;;
        ret (TooYoung ageDays)
      else check_reminders fuel now issue pr ageDays
  end.

(** One turn of the loop of [run], for [issue], with [now] read at the start
    of the run.  The value returned names the way the turn ended. *)
Definition run_body (fuel : nat) (now : Z) (issue : resource) : M verdict :=
  if negb (pull_request issue) then ret NotPullRequest
  else
    let n := number issue in
    pr <- getPull n ;;
    pr <- pr_object pr ;;
    let baseRef := base_ref pr in
    if negb (is_string baseRef (TARGET_BRANCH cfg)) then
      log ("#" +++ JS.show n +++ ": base is " +++ show_opt baseRef
           +++ ", skipping (want " +++ TARGET_BRANCH cfg +++ ").") ;;
      ret WrongBase
    else
      events <- listIssueEvents fuel n ;;
      check_age fuel now issue pr events.

(** [for (const issue of issues) { ... }]; the verdicts are collected for
    the statements below, the script keeps none of them. *)
Fixpoint run_loop (fuel : nat) (now : Z) (issues : list resource) : M (list verdict) :=
  match issues with
  | [] => ret []
  | issue :: rest =>
      v <- run_body fuel now issue ;;
      vs <- run_loop fuel now rest ;;
      ret (v :: vs)
  end.

Definition run (fuel : nat) : M (list verdict) :=
  now <- Date_now ;;
  log ("Repo: " +++ OWNER cfg +++ "/" +++ REPO cfg) ;;
  log ("Label: " +++ LABEL_NAME cfg +++ " | Target branch: " +++ TARGET_BRANCH cfg) ;;
  log ("Threshold: " +++ JS.show_num (AFTER_DAYS cfg) +++ "d | Re-reminder: "
       +++ JS.show_num (EVERY_DAYS cfg) +++ "d") ;;
  issues <- listOpenIssuesWithLabel fuel (LABEL_NAME cfg) ;;
  vs <- run_loop fuel now issues ;;
  log "Done." ;;
  ret vs.

End Script.

(** The whole process: its exit status ([None] when the fuel runs out
    before the process ends) and what it did. *)
Definition main (env : Env) (h : Host) (fuel : nat) (w : World) : option Z * World :=
  match load_config env with
  | inr message =>
      (Some 1, note (Errored message) w)
  | inl cfg =>
      match run h cfg fuel w with
      | (Ret _, w') => (Some 0, w')
      | (Throw err, w') =>
          (Some 1, note (Errored (show_exn err)) w')
      | (OutOfFuel, w') => (None, w')
      end
  end.

(** ** Vocabulary of the statements *)

(** The query string of the request for page [p]. *)
Definition page_query (params : list (string * string)) (p : Z) : list (string * string) :=
  set_param "page" (JS.show p) (query_of params).

(** [res] is a success carrying the array [items]. *)
Definition delivers (res : response) (items : list resource) : Prop :=
  rate_limited res = false /\ ok res = true /\ parsed res = Some (JArray items).

(** The requests for pages [p], [p + 1], ... ([n] of them). *)
Fixpoint page_requests (path : string) (params : list (string * string))
    (p : Z) (n : nat) : list event_ :=
  match n with
  | O => []
  | S n' => Requested (GET path (page_query params p)) :: page_requests path params (p + 1) n'
  end.

(** The comments posted in a trace. *)
Fixpoint posts (t : list event_) : list request :=
  match t with
  | [] => []
  | Requested (POST path c) :: r => POST path c :: posts r
  | _ :: r => posts r
  end.

(** The request of a turn of the loop of [paginate] at [page]; the world
    after that request, and after the wait of a rate-limited turn. *)
Definition page_request (path : string) (qp : list (string * string)) (page : Z) : request :=
  GET path (set_param "page" (JS.show page) qp).

Definition asked (path : string) (qp : list (string * string)) (page : Z) (w : World) : World :=
  note (Requested (page_request path qp page)) w.

Definition waited (h : Host) (path : string) (qp : list (string * string)) (page : Z)
    (w : World) : World :=
  let ms := waitMs_of h (respond h w (page_request path qp page)) (clock w) in
  {| clock := clock w + timer h ms;
     trace := trace w ++ [Requested (page_request path qp page);
                          Logged ("Rate-limited. Sleeping " +++ JS.show_num ms +++ "ms...");
                          Slept ms] |}.

(** The world once [run] has printed its three opening lines. *)
Definition announced (cfg : Config) (w : World) : World :=
  {| clock := clock w;
     trace := trace w
       ++ [Logged ("Repo: " +++ OWNER cfg +++ "/" +++ REPO cfg);
           Logged ("Label: " +++ LABEL_NAME cfg +++ " | Target branch: " +++ TARGET_BRANCH cfg);
           Logged ("Threshold: " +++ JS.show_num (AFTER_DAYS cfg) +++ "d | Re-reminder: "
                   +++ JS.show_num (EVERY_DAYS cfg) +++ "d")] |}.

(** [L] is the time of the latest event that applied the label. *)
Definition latest_labeled (cfg : Config) (events : list resource) (L : Z) : Prop :=
  (exists e, In e events /\ is_labeled cfg e = true /\ created_at e = L)
  /\ (forall e, In e events -> is_labeled cfg e = true -> created_at e <= L).

(** [T] is the time of the latest marked comment of an automated author. *)
Definition latest_ours (cfg : Config) (comments : list resource) (T : Z) : Prop :=
  (exists c, In c comments /\ is_ours cfg c = true /\ created_at c = T)
  /\ (forall c, In c comments -> is_ours cfg c = true -> created_at c <= T).

(** The log lines of the two skips that depend on time. *)
Definition too_young_line (cfg : Config) (n ageDays : Z) : string :=
  "#" +++ JS.show n +++ ": label age " +++ JS.show ageDays +++ "d < "
  +++ JS.show_num (AFTER_DAYS cfg) +++ "d, skipping.".

Definition reminded_line (cfg : Config) (n since : Z) : string :=
  "#" +++ JS.show n +++ ": reminded " +++ JS.show since
  +++ "d ago (< " +++ JS.show_num (EVERY_DAYS cfg) +++ "d), skipping.".

(** The log lines of the two skips that do not depend on time. *)
Definition wrong_base_line (cfg : Config) (n : Z) (baseRef : option string) : string :=
  "#" +++ JS.show n +++ ": base is " +++ show_opt baseRef
  +++ ", skipping (want " +++ TARGET_BRANCH cfg +++ ").".

Definition no_event_line (n : Z) : string :=
  "#" +++ JS.show n +++ ": no labeled event found (label may be pre-existing), skipping.".

(** The sources of the mentions: the login of the author when there is
    one, the logins of the requested reviewers, the slugs of the requested
    teams. *)
Definition author_logins (issue : resource) : list string :=
  match login_of (user issue) with
  | Some (String c s) => [String c s]
  | _ => []
  end.

Definition reviewers_of (pr : resource) : list string :=
  match requested_reviewers pr with
  | Some logins => logins
  | None => []
  end.

Definition teams_of (pr : resource) : list string :=
  match requested_teams pr with
  | Some slugs => slugs
  | None => []
  end.

Definition user_mention (login : string) : string := "@" +++ login.

Definition team_mention (pr : resource) (slug : string) : string :=
  "@" +++ base_owner pr +++ "/" +++ slug.

(** The head of a list is not older than any of its elements. *)
Definition newest_at_head (l : list resource) : Prop :=
  match l with
  | [] => True
  | e :: _ => forall y, In y l -> created_at y <= created_at e
  end.

(** ** Hosts and data to run the script against *)

(** A success response with body [j]. *)
Definition ok_json (j : json) : response :=
  {| status := 200; ratelimit_remaining := None; ratelimit_reset := None;
     text := ""; parsed := Some j |}.

(** A rate-limit response announcing a reset at [reset] (epoch seconds). *)
Definition rate_limit_response (reset : string) : response :=
  {| status := 403; ratelimit_remaining := Some "0"; ratelimit_reset := Some reset;
     text := "API rate limit exceeded"; parsed := Some JScalar |}.

(** A failure with status [st] and body [t]. *)
Definition failure (st : Z) (t : string) : response :=
  {| status := st; ratelimit_remaining := None; ratelimit_reset := None;
     text := t; parsed := None |}.

Fixpoint lookup {A : Type} (k : string) (q : list (string * A)) : option A :=
  match q with
  | [] => None
  | (k', v) :: r => if String.eqb k' k then Some v else lookup k r
  end.

(** Page [p] of [items], a hundred to the page. *)
Definition page_of (items : list resource) (p : Z) : list resource :=
  firstn 100 (skipn (100 * (Z.to_nat p - 1)) items).

(** [Number] on decimal digits. *)
Definition decimal_number (s : string) : JS.num := JS.parseInt s.

(** A timer that takes as long as it is asked to, and a tick otherwise. *)
Definition exact_timer (ms : JS.num) : Z :=
  match ms with
  | JS.Num z => Z.max 1 z
  | JS.NaN => 1
  end.

(** A list endpoint over [items]: every GET is answered with the page its
    [page] parameter names. *)
Definition paged_respond (items : list resource) (req : request) : response :=
  match req with
  | GET _ q =>
      match JS.parseInt (JS.or_default (lookup "page" q) "1") with
      | JS.Num p => ok_json (JArray (page_of items p))
      | JS.NaN => failure 422 "bad page"
      end
  | POST _ _ => failure 404 "not found"
  end.

Definition paged_host (items : list resource) : Host :=
  {| respond := fun _ req => paged_respond items req;
     to_number := decimal_number;
     timer := exact_timer |}.

(** Sample data. *)
Definition sample_user (kind login : string) : User :=
  {| user_type := Some kind; user_login := Some login |}.

Definition sample_issue (n : Z) (author : string) : resource :=
  {| pull_request := true; number := n; user := Some (sample_user "User" author);
     body := Some "backport me"; created_at := 0; event := None; label_name := None;
     base_ref := None; base_owner := ""; requested_reviewers := None;
     requested_teams := None |}.

Definition sample_pull (n : Z) (base owner : string) (reviewers teams : list string) : resource :=
  {| pull_request := false; number := n; user := None; body := None; created_at := 0;
     event := None; label_name := None; base_ref := Some base; base_owner := owner;
     requested_reviewers := Some reviewers; requested_teams := Some teams |}.

Definition sample_event (kind label : string) (at_ms : Z) : resource :=
  {| pull_request := false; number := 0; user := None; body := None; created_at := at_ms;
     event := Some kind; label_name := Some label; base_ref := None; base_owner := "";
     requested_reviewers := None; requested_teams := None |}.

Definition sample_comment (author : User) (text : string) (at_ms : Z) : resource :=
  {| pull_request := false; number := 0; user := Some author; body := Some text;
     created_at := at_ms; event := None; label_name := None; base_ref := None;
     base_owner := ""; requested_reviewers := None; requested_teams := None |}.

(** [n] events, told apart by their time. *)
Definition sample_items (n : nat) : list resource :=
  map (fun k => sample_event "labeled" "backport-pending" (Z.of_nat k)) (seq 0 n).

Definition w0 : World := {| clock := 0; trace := [] |}.

(** The list endpoint over [items] behind a rate limit that lifts at
    [reset] (epoch seconds): until then every request is refused. *)
Definition throttled_host (items : list resource) (reset : Z) : Host :=
  {| respond := fun w req =>
       if clock w <? reset * 1000 then rate_limit_response (JS.show reset)
       else paged_respond items req;
     to_number := decimal_number;
     timer := exact_timer |}.

(** A host that answers by a table, keyed by method and path (every list
    fits on one page); anything else is not found. *)
Definition route_key (req : request) : string :=
  match req with
  | GET path _ => "GET " +++ path
  | POST path _ => "POST " +++ path
  end.

Definition table_host (routes : list (string * response)) : Host :=
  {| respond := fun _ req =>
       match lookup (route_key req) routes with
       | Some res => res
       | None => failure 404 "Not Found"
       end;
     to_number := decimal_number;
     timer := exact_timer |}.

(** An environment with the two required variables and [extra]. *)
Definition sample_env (extra : list (string * string)) : Env :=
  fun name => lookup name (extra ++ [("GITHUB_TOKEN", "t0ken"); ("GITHUB_REPOSITORY", "o/r")]).

(** The configuration of the defaults. *)
Definition sample_cfg : Config :=
  {| TOKEN := "t0ken"; LABEL_NAME := "backport-pending"; TARGET_BRANCH := "master";
     AFTER_DAYS := JS.Num 7; EVERY_DAYS := JS.Num 7;
     MARKER := "[backport-pending-reminder]"; OWNER := "o"; REPO := "r" |}.

(** A list endpoint whose second page is an object. *)
Definition truncating_host (items : list resource) : Host :=
  {| respond := fun _ req =>
       match req with
       | GET _ q =>
           if String.eqb (JS.or_default (lookup "page" q) "1") "1"
           then ok_json (JArray (page_of items 1))
           else ok_json (JObject blank)
       | POST _ _ => failure 404 "Not Found"
       end;
     to_number := decimal_number;
     timer := exact_timer |}.

(** Two candidates on one page of the issue list. *)
Definition two_candidates : response :=
  ok_json (JArray [sample_issue 42 "alice"; sample_issue 43 "bob"]).

(** The pull request of the first candidate cannot be fetched. *)
Definition failing_pull_host : Host :=
  table_host [("GET /repos/o/r/issues", two_candidates);
              ("GET /repos/o/r/pulls/42", failure 500 "boom")].

(** The fetch of the first pull request is rate-limited. *)
Definition limited_pull_host : Host :=
  table_host [("GET /repos/o/r/issues", two_candidates);
              ("GET /repos/o/r/pulls/42", rate_limit_response "5")].

(** The answer to a comment that was created. *)
Definition created : response :=
  {| status := 201; ratelimit_remaining := None; ratelimit_reset := None;
     text := ""; parsed := Some (JObject blank) |}.

(** One candidate, pull request 42 by alice on master, reviewers bob and
    the team core, with the given events and comments. *)
Definition candidate_host (events comments : list resource) : Host :=
  table_host
    [("GET /repos/o/r/issues", ok_json (JArray [sample_issue 42 "alice"]));
     ("GET /repos/o/r/pulls/42",
      ok_json (JObject (sample_pull 42 "master" "o" ["bob"] ["core"])));
     ("GET /repos/o/r/issues/42/events", ok_json (JArray events));
     ("GET /repos/o/r/issues/42/comments", ok_json (JArray comments));
     ("POST /repos/o/r/issues/42/comments", created)].

(** A history: the label applied at 500 ms and again at 1000 ms, removed
    in between, and another label applied later. *)
Definition sample_events : list resource :=
  [sample_event "labeled" "backport-pending" 500;
   sample_event "unlabeled" "backport-pending" 700;
   sample_event "labeled" "backport-pending" 1000;
   sample_event "labeled" "bug" 9000].

(** The worlds of the turn of candidate 42 from [w0]: after the pull
    request was fetched, after the events, after the comments. *)
Definition w_pull : World :=
  note (Requested (GET "/repos/o/r/pulls/42" [])) w0.

Definition w_events : World :=
  note (Requested (GET "/repos/o/r/issues/42/events" [("per_page", "100"); ("page", "1")]))
    w_pull.

Definition w_comments : World :=
  note (Requested (GET "/repos/o/r/issues/42/comments" [("per_page", "100"); ("page", "1")]))
    w_events.

(** Comments: a person quoting the marker, two reminders of the bot (at
    2000 ms and at 4000 ms), and the bot without the marker. *)
Definition sample_comments : list resource :=
  [sample_comment (sample_user "User" "carol") "see [backport-pending-reminder] above" 9000;
   sample_comment (sample_user "Bot" "github-actions[bot]")
     "[backport-pending-reminder] first" 2000;
   sample_comment (sample_user "User" "my-github-actions-runner")
     "[backport-pending-reminder] second" 4000;
   sample_comment (sample_user "Bot" "github-actions[bot]") "CI passed" 8000].

(** The label applied once, at time 0; and the clock ten units and a bit
    later. *)
Definition labeled_once : list resource :=
  [sample_event "labeled" "backport-pending" 0].

Definition ten_units_later : World := {| clock := 10 * unit_ms + 17; trace := [] |}.

(** A reminder of the bot, two units before [ten_units_later]. *)
Definition reminder_two_units_ago : resource :=
  sample_comment (sample_user "Bot" "github-actions[bot]")
    "[backport-pending-reminder] please backport" (8 * unit_ms + 17).

(** ** Vocabulary of the further properties *)



(** [s] holds no slash. *)
Fixpoint no_slash (s : string) : bool :=
  match s with
  | EmptyString => true
  | String c r => negb (Ascii.eqb c "/") && no_slash r
  end.

(** The values of GITHUB_REPOSITORY that have no owner or no repository
    name before and after the first slash. *)
Inductive unparsable_repository : option string -> Prop :=
| repo_unset : unparsable_repository None
| repo_no_slash s : no_slash s = true -> unparsable_repository (Some s)
| repo_no_owner rest : unparsable_repository (Some ("/" +++ rest))
| repo_no_name o : no_slash o = true -> unparsable_repository (Some (o +++ "/"))
| repo_empty_name o rest :
    no_slash o = true -> unparsable_repository (Some (o +++ "//" +++ rest)).

(** The environment in which the variables set to the empty string are
    not set. *)
Definition unset_empty (env : Env) : Env :=
  fun name =>
    match env name with
    | Some EmptyString => None
    | other => other
    end.

(** The requests made in a trace, in order. *)
Fixpoint requests (t : list event_) : list request :=
  match t with
  | [] => []
  | Requested r :: rest => r :: requests rest
  | _ :: rest => requests rest
  end.

(** An API that refuses every request as rate-limited, announcing a reset
    one second after the time of the request. *)
Definition always_limited_host : Host :=
  {| respond := fun w _ => rate_limit_response (JS.show (clock w / 1000 + 1));
     to_number := decimal_number;
     timer := exact_timer |}.


(** [a] stands before [b] in a list sorted newest first. *)
Definition not_older (a b : resource) : Prop := created_at b <= created_at a.

(** The elements of [l] dated [t], in their order. *)
Definition dated (t : Z) (l : list resource) : list resource :=
  filter (fun x => created_at x =? t) l.

(** [x] is, in [l], the first of the newest elements that pass [p]. *)
Definition first_of_newest (p : resource -> bool) (l : list resource) (x : resource) : Prop :=
  exists l1 l2,
    l = l1 ++ x :: l2
    /\ p x = true
    /\ (forall y, In y l1 -> p y = true -> created_at y < created_at x)
    /\ (forall y, In y l2 -> p y = true -> created_at y <= created_at x).

(** The path of the comments of issue [n], and the world after a reminder
    with body [comment] was posted from [w]: the request, the log line and
    the pause of 200 ms. *)
Definition comments_path (cfg : Config) (n : Z) : string :=
  repo_path cfg +++ "/issues/" +++ JS.show n +++ "/comments".

Definition reminded (h : Host) (cfg : Config) (n ageDays : Z) (comment : string)
    (w : World) : World :=
  {| clock := clock w + timer h (JS.Num 200);
     trace := trace w
       ++ [Requested (POST (comments_path cfg n) comment);
           Logged ("#" +++ JS.show n +++ ": posted reminder (age "
                   +++ JS.show ageDays +++ "d).");
           Slept (JS.Num 200)] |}.

(** The number of reminders among verdicts. *)
Fixpoint count_posted (vs : list verdict) : nat :=
  match vs with
  | [] => 0
  | Posted _ :: r => S (count_posted r)
  | _ :: r => count_posted r
  end.

(** What a turn that ended with [r] may have added to the comments posted
    before it, [before], to give [after]. *)
Definition posted_in_turn (cfg : Config) (issue : resource) (r : result verdict)
    (before after : list request) : Prop :=
  match r with
  | Ret (Posted _) =>
      exists comment,
        after = before ++ [POST (comments_path cfg (number issue)) comment]
        /\ JS.includes comment (MARKER cfg) = true
  | Ret _ => after = before
  | Throw _ | OutOfFuel =>
      after = before
      \/ exists comment, after = before ++ [POST (comments_path cfg (number issue)) comment]
  end.

(** * Properties *)

(** ** Sanity checks of the JavaScript primitives *)

Example parseInt_7 : JS.parseInt "7" = JS.Num 7.
Proof. reflexivity. Qed.

Example parseInt_junk : JS.parseInt "soon" = JS.NaN.
Proof. reflexivity. Qed.

Example parseInt_prefix : JS.parseInt "  -12px" = JS.Num (-12).
Proof. reflexivity. Qed.

Example show_42 : JS.show 42 = "42".
Proof. reflexivity. Qed.

Example split_repo : JS.split "/" "elastic/rally-tracks" = ["elastic"; "rally-tracks"].
Proof. reflexivity. Qed.

Example includes_marker :
  JS.includes "hello [backport-pending-reminder] world" "[backport-pending-reminder]" = true.
Proof. reflexivity. Qed.

(** ** The loop of [paginate], one turn at a time *)

Lemma set_param_again (k v1 v2 : string) (q : list (string * string)) :
  set_param k v2 (set_param k v1 q) = set_param k v2 q.
Proof.
  induction q as [|[k' v'] q IH]; simpl.
  - now rewrite String.eqb_refl.
  - destruct (String.eqb k' k) eqn:E; simpl.
    + now rewrite String.eqb_refl.
    + now rewrite E, IH.
Qed.

Lemma lookup_set_param (k v : string) (q : list (string * string)) :
  lookup k (set_param k v q) = Some v.
Proof.
  induction q as [|[k' v'] q IH]; simpl.
  - now rewrite String.eqb_refl.
  - destruct (String.eqb k' k) eqn:E; simpl.
    + now rewrite String.eqb_refl.
    + now rewrite E.
Qed.

Section Turns.

Variable h : Host.

(** The loop reads its query only through [qp.set("page", ...)]. *)
Lemma paginate_loop_query fuel path qp1 qp2 page results w :
  (forall v, set_param "page" v qp1 = set_param "page" v qp2) ->
  paginate_loop h fuel path qp1 page results w
  = paginate_loop h fuel path qp2 page results w.
Proof.
  intros H. destruct fuel as [|fuel]; [reflexivity|].
  cbn [paginate_loop]. now rewrite H.
Qed.

Lemma turn_rate_limited fuel path qp page results w :
  rate_limited (respond h w (page_request path qp page)) = true ->
  paginate_loop h (S fuel) path qp page results w
  = paginate_loop h fuel path qp page results (waited h path qp page w).
Proof.
  intros H.
  rewrite (paginate_loop_query fuel path qp (set_param "page" (JS.show page) qp))
    by (intros v; now rewrite set_param_again).
  unfold page_request in H.
  cbn [paginate_loop]. unfold bind at 1. cbn [api].
  rewrite H. unfold bind, Date_now, log, emit, sleep, waited, note, page_request.
  cbn [clock trace]. rewrite <- !app_assoc. reflexivity.
Qed.

Lemma turn_failed fuel path qp page results w :
  let res := respond h w (page_request path qp page) in
  rate_limited res = false -> ok res = false ->
  paginate_loop h (S fuel) path qp page results w
  = (Throw (Error ("GET " +++ path +++ " failed: "
                   +++ JS.show (status res) +++ " " +++ text res)),
     asked path qp page w).
Proof.
  intros res H1 H2. cbn [paginate_loop]. unfold bind at 1. cbn [api].
  unfold res, page_request in *. rewrite H1, H2. reflexivity.
Qed.


Lemma turn_last_page fuel path qp page results w items :
  delivers (respond h w (page_request path qp page)) items ->
  (length items < 100)%nat ->
  paginate_loop h (S fuel) path qp page results w
  = (Ret (results ++ items), asked path qp page w).
Proof.
  intros (H1 & H2 & H3) L. cbn [paginate_loop]. unfold bind at 1. cbn [api].
  unfold page_request in *. rewrite H1, H2. cbn [negb].
  unfold bind, res_json. rewrite H3. cbn [ret].
  destruct items as [|x items].
  - now rewrite app_nil_r.
  - cbv zeta.
    destruct (Z.ltb_spec (Z.of_nat (length (x :: items))) 100) as [_|G];
      [reflexivity | lia].
Qed.

Lemma turn_full_page fuel path qp page results w items :
  delivers (respond h w (page_request path qp page)) items ->
  (100 <= length items)%nat ->
  paginate_loop h (S fuel) path qp page results w
  = paginate_loop h fuel path qp (page + 1) (results ++ items) (asked path qp page w).
Proof.
  intros (H1 & H2 & H3) L.
  rewrite (paginate_loop_query fuel path qp (set_param "page" (JS.show page) qp))
    by (intros v; now rewrite set_param_again).
  cbn [paginate_loop]. unfold bind at 1. cbn [api].
  unfold page_request in *. rewrite H1, H2. cbn [negb].
  unfold bind at 1, res_json. rewrite H3. cbn [ret].
  destruct items as [|x items]; [simpl in L; lia|].
  cbv zeta.
  destruct (Z.ltb_spec (Z.of_nat (length (x :: items))) 100) as [G|_];
    [lia | reflexivity].
Qed.

Lemma turn_not_array fuel path qp page results w j :
  let res := respond h w (page_request path qp page) in
  rate_limited res = false -> ok res = true -> parsed res = Some j ->
  (forall items, j <> JArray items) ->
  paginate_loop h (S fuel) path qp page results w
  = (Ret results, asked path qp page w).
Proof.
  intros res H1 H2 H3 N. cbn [paginate_loop]. unfold bind at 1. cbn [api].
  unfold res, page_request in *. rewrite H1, H2. cbn [negb].
  unfold bind, res_json. rewrite H3. cbn [ret].
  destruct j as [| |items|o]; try reflexivity.
  now destruct (N items).
Qed.

(** Full pages served from time [since] on are appended in order, one
    request each; the loop is then at the page after them. *)
Lemma loop_through_full_pages path params since :
  forall (pages : list (list resource)) (fuel : nat) (page : Z)
         (results : list resource) (w : World),
    Forall (fun pg => (100 <= length pg)%nat) pages ->
    (forall w' k pg, since <= clock w' -> nth_error pages k = Some pg ->
       delivers (respond h w' (GET path (page_query params (page + Z.of_nat k)))) pg) ->
    since <= clock w ->
    paginate_loop h (length pages + fuel) path (query_of params) page results w
    = paginate_loop h fuel path (query_of params) (page + Z.of_nat (length pages))
        (results ++ concat pages)
        {| clock := clock w;
           trace := trace w ++ page_requests path params page (length pages) |}.
Proof.
  induction pages as [|pg pages IH]; intros fuel page results w Hfull Hsrv Hw.
  - cbn [length concat page_requests Nat.add Z.of_nat].
    rewrite Z.add_0_r, !app_nil_r. now destruct w.
  - inversion Hfull as [|? ? Hpg Hrest]; subst.
    cbn [length Nat.add].
    rewrite (turn_full_page _ path (query_of params) page results w pg); auto.
    + rewrite IH; auto.
      * cbn [asked note clock trace concat page_requests].
        rewrite <- !app_assoc.
        replace (page + 1 + Z.of_nat (length pages))
          with (page + Z.of_nat (S (length pages))) by lia.
        reflexivity.
      * intros w' k pg' Hc Hk. specialize (Hsrv w' (S k) pg' Hc Hk).
        now replace (page + 1 + Z.of_nat k) with (page + Z.of_nat (S k)) by lia.
    + specialize (Hsrv w 0%nat pg Hw eq_refl).
      now rewrite Z.add_0_r in Hsrv.
Qed.

End Turns.

Lemma three_pages (items : list resource) :
  length items = 250%nat ->
  concat [firstn 100 items; firstn 100 (skipn 100 items)] ++ firstn 100 (skipn 200 items)
  = items.
Proof.
  intros L. cbn [concat]. rewrite app_nil_r, <- app_assoc.
  rewrite (firstn_all2 (n := 100) (skipn 200 items))
    by (rewrite length_skipn; lia).
  replace (skipn 200 items) with (skipn 100 (skipn 100 items))
    by (rewrite skipn_skipn; reflexivity).
  now rewrite !firstn_skipn.
Qed.

(** ** Pagination (C4) *)

Lemma page_requests_snoc (path : string) (params : list (string * string)) (n : nat) :
  forall p,
    page_requests path params p (S n)
    = page_requests path params p n
      ++ [Requested (page_request path (query_of params) (p + Z.of_nat n))].
Proof.
  induction n as [|n IH]; intros p.
  - cbn. now rewrite Z.add_0_r.
  - change (page_requests path params p (S (S n)))
      with (Requested (GET path (page_query params p))
            :: page_requests path params (p + 1) (S n)).
    rewrite IH. cbn [page_requests app].
    now replace (p + 1 + Z.of_nat n) with (p + Z.of_nat (S n)) by lia.
Qed.

(** Full pages, then a short one. *)
Lemma paginate_pages_since (h : Host) (path : string) (params : list (string * string))
    (pages : list (list resource)) (last : list resource) (since : Z)
    (fuel : nat) (page : Z) (results : list resource) (w : World) :
  Forall (fun pg => (100 <= length pg)%nat) pages ->
  (length last < 100)%nat ->
  (forall w' k pg, since <= clock w' -> nth_error (pages ++ [last]) k = Some pg ->
     delivers (respond h w' (GET path (page_query params (page + Z.of_nat k)))) pg) ->
  since <= clock w ->
  (length pages < fuel)%nat ->
  paginate_loop h fuel path (query_of params) page results w
  = (Ret (results ++ concat pages ++ last),
     {| clock := clock w;
        trace := trace w ++ page_requests path params page (S (length pages)) |}).
Proof.
  intros Hfull Hlast Hsrv Hw Hfuel.
  replace fuel with (length pages + S (fuel - length pages - 1))%nat by lia.
  rewrite (loop_through_full_pages h path params since); auto.
  - rewrite (turn_last_page h _ path _ _ _ _ last); auto.
    + unfold asked, note. cbn [clock trace].
      now rewrite <- !app_assoc, page_requests_snoc.
    + apply (Hsrv _ (length pages)); auto.
      rewrite nth_error_app2, Nat.sub_diag; auto.
  - intros w' k pg Hc Hk. apply Hsrv; auto.
    rewrite nth_error_app1; auto. apply nth_error_Some. congruence.
Qed.

(** C4: [paginate] asks for page 1, 2, ... and appends each page in order
    until a page of fewer than 100 items (an empty one included) comes back,
    and returns the concatenation; a source of 250 items served as pages of
    100, 100 and 50 comes back whole and in order, in three requests. *)
Theorem paginate_concatenates_pages :
  (forall (h : Host) (path : string) (params : list (string * string))
          (pages : list (list resource)) (last : list resource)
          (fuel : nat) (w : World),
      Forall (fun pg => (100 <= length pg)%nat) pages ->
      (length last < 100)%nat ->
      (forall w' k pg, nth_error (pages ++ [last]) k = Some pg ->
         delivers (respond h w' (GET path (page_query params (1 + Z.of_nat k)))) pg) ->
      (length pages < fuel)%nat ->
      paginate h fuel path params w
      = (Ret (concat pages ++ last),
         {| clock := clock w;
            trace := trace w ++ page_requests path params 1 (S (length pages)) |}))
  /\
  (forall (items : list resource) (path : string) (params : list (string * string))
          (fuel : nat) (w : World),
      length items = 250%nat ->
      (3 <= fuel)%nat ->
      length (page_of items 1) = 100%nat /\
      length (page_of items 2) = 100%nat /\
      length (page_of items 3) = 50%nat /\
      paginate (paged_host items) fuel path params w
      = (Ret items,
         {| clock := clock w;
            trace := trace w ++ page_requests path params 1 3 |})).
Proof.
  assert (G : forall (h : Host) path params pages last fuel w,
      Forall (fun pg => (100 <= length pg)%nat) pages ->
      (length last < 100)%nat ->
      (forall w' k pg, nth_error (pages ++ [last]) k = Some pg ->
         delivers (respond h w' (GET path (page_query params (1 + Z.of_nat k)))) pg) ->
      (length pages < fuel)%nat ->
      paginate h fuel path params w
      = (Ret (concat pages ++ last),
         {| clock := clock w;
            trace := trace w ++ page_requests path params 1 (S (length pages)) |})).
  { intros h path params pages last fuel w Hfull Hlast Hsrv Hfuel.
    unfold paginate.
    rewrite (paginate_pages_since h path params pages last (clock w)); auto.
    apply Z.le_refl. }
  split; [exact G|].
  intros items path params fuel w L Hfuel.
  assert (P1 : page_of items 1 = firstn 100 items) by reflexivity.
  assert (P2 : page_of items 2 = firstn 100 (skipn 100 items)) by reflexivity.
  assert (P3 : page_of items 3 = firstn 100 (skipn 200 items)) by reflexivity.
  rewrite P1, P2, P3, !length_firstn, !length_skipn, L.
  repeat (split; [reflexivity|]).
  rewrite (G (paged_host items) path params
             [firstn 100 items; firstn 100 (skipn 100 items)]
             (firstn 100 (skipn 200 items)) fuel w).
  - now rewrite three_pages.
  - repeat apply Forall_cons; [| |apply Forall_nil];
      rewrite length_firstn, ?length_skipn, L; apply Nat.leb_le; reflexivity.
  - rewrite length_firstn, length_skipn, L. apply Nat.ltb_lt. reflexivity.
  - intros w' k pg Hk. cbn [respond paged_host paged_respond].
    unfold page_query. rewrite lookup_set_param.
    destruct k as [|[|[|k]]]; cbn [nth_error app] in Hk.
    + injection Hk as <-. repeat split.
    + injection Hk as <-. repeat split.
    + injection Hk as <-. repeat split.
    + destruct k; discriminate.
  - cbn [length]. lia.
Qed.

Lemma paginate_concatenates_pages_witness :
  paginate (paged_host (sample_items 250)) 3 "/repos/o/r/issues/1/events" [] w0
  = (Ret (sample_items 250),
     {| clock := 0;
        trace := [Requested (GET "/repos/o/r/issues/1/events" [("per_page", "100"); ("page", "1")]);
                  Requested (GET "/repos/o/r/issues/1/events" [("per_page", "100"); ("page", "2")]);
                  Requested (GET "/repos/o/r/issues/1/events" [("per_page", "100"); ("page", "3")])] |}).
Proof.
  apply (proj2 paginate_concatenates_pages (sample_items 250)
           "/repos/o/r/issues/1/events" [] 3%nat w0).
  - reflexivity.
  - apply Nat.leb_le. reflexivity.
Defined.

(** ** What [paginate] does to the world *)

(** The loop only adds to the trace, and adds no comment; a turn starts
    with the request for its page. *)
Lemma paginate_loop_trace (h : Host) :
  (forall fuel path qp page results w,
     exists rest,
       trace (snd (paginate_loop h fuel path qp page results w)) = trace w ++ rest
       /\ posts rest = [])
  /\
  (forall fuel path qp page results w,
     exists rest,
       trace (snd (paginate_loop h (S fuel) path qp page results w))
       = trace w ++ Requested (page_request path qp page) :: rest).
Proof.
  assert (G : forall fuel path qp page results w,
     exists rest,
       trace (snd (paginate_loop h fuel path qp page results w)) = trace w ++ rest
       /\ posts rest = []
       /\ (fuel <> O -> exists rest',
             rest = Requested (page_request path qp page) :: rest')).
  { induction fuel as [|fuel IH]; intros path qp page results w.
    - exists []. cbn. rewrite app_nil_r. repeat split; congruence.
    - cbn [paginate_loop]. unfold bind at 1. cbn [api].
      set (q := set_param "page" (JS.show page) qp).
      set (res := respond h w (GET path q)).
      destruct (rate_limited res).
      + unfold bind at 1, Date_now. unfold bind at 1, log, emit.
        unfold bind at 1, sleep.
        match goal with
        | |- context [paginate_loop h fuel path q page results ?w1] =>
            destruct (IH path q page results w1) as (rest & Ht & Hp & _)
        end.
        rewrite Ht. cbn [trace note]. rewrite <- !app_assoc. cbn [app].
        eexists. split; [reflexivity|]. split; [exact Hp|]. eauto.
      + destruct (negb (ok res)).
        * exists [Requested (GET path q)]. cbn. repeat split; eauto.
        * unfold bind at 1, res_json.
          destruct (parsed res) as [j|].
          2:{ exists [Requested (GET path q)]. cbn. repeat split; eauto. }
          cbn [ret].
          assert (D : exists rest,
                     trace (note (Requested (GET path q)) w) = trace w ++ rest
                     /\ posts rest = []
                     /\ (S fuel <> O -> exists rest',
                           rest = Requested (page_request path qp page) :: rest')).
          { exists [Requested (GET path q)]. cbn. repeat split; eauto. }
          destruct j as [| |items|o]; try exact D.
          destruct items as [|x items]; try exact D.
          cbv zeta. destruct (Z.of_nat (length (x :: items)) <? 100); try exact D.
          match goal with
          | |- context [paginate_loop h fuel path q ?p ?r ?w1] =>
              destruct (IH path q p r w1) as (rest & Ht & Hp & _)
          end.
          rewrite Ht. cbn [trace note]. rewrite <- !app_assoc. cbn [app].
          eexists. split; [reflexivity|]. split; [exact Hp|]. eauto. }
  split; intros fuel path qp page results w.
  - destruct (G fuel path qp page results w) as (rest & Ht & Hp & _). eauto.
  - destruct (G (S fuel) path qp page results w) as (rest & Ht & _ & Hs).
    destruct Hs as [rest' ->]; [congruence|]. eauto.
Qed.

(** ** Rate limits in [paginate] (C5) *)

Lemma waitMs_of_number (h : Host) (res : response) (now r : Z) :
  to_number h (JS.or_default (ratelimit_reset res) "0") = JS.Num r ->
  waitMs_of h res now = JS.Num (Z.max 0 (r * 1000 - now) + 1000).
Proof. intros H. unfold waitMs_of. now rewrite H. Qed.

(** C5: a rate-limit response (403 with [x-ratelimit-remaining: 0]) makes
    the turn of [paginate] neither throw nor move on: after the request, one
    log line and one sleep the loop is in the same state (same page, same
    results) and asks for the same page again; the sleep asked for is the
    time left until the reset plus one second, so with a timer that sleeps
    as long as asked the retry is not before reset + 1 s; a source refused
    until its reset and served afterwards comes back whole, every page once. *)
Theorem rate_limit_retries_same_page :
  (forall (h : Host) (fuel : nat) (path : string) (qp : list (string * string))
          (page : Z) (results : list resource) (w : World),
      let res := respond h w (page_request path qp page) in
      rate_limited res = true ->
      paginate_loop h (S fuel) path qp page results w
      = paginate_loop h fuel path qp page results (waited h path qp page w)
      /\ (exists rest,
            trace (snd (paginate_loop h (S fuel) path qp page results
                          (waited h path qp page w)))
            = trace (waited h path qp page w)
              ++ Requested (page_request path qp page) :: rest)
      /\ (forall r,
            to_number h (JS.or_default (ratelimit_reset res) "0") = JS.Num r ->
            let ms := Z.max 0 (r * 1000 - clock w) + 1000 in
            waitMs_of h res (clock w) = JS.Num ms /\
            (ms <= timer h (JS.Num ms) ->
             r * 1000 + 1000 <= clock (waited h path qp page w))))
  /\
  (forall (h : Host) (path : string) (params : list (string * string))
          (pages : list (list resource)) (last : list resource)
          (reset : Z) (fuel : nat) (w : World),
      Forall (fun pg => (100 <= length pg)%nat) pages ->
      (length last < 100)%nat ->
      (forall w' k pg, nth_error (pages ++ [last]) k = Some pg ->
         let res := respond h w' (GET path (page_query params (1 + Z.of_nat k))) in
         (clock w' < reset * 1000 ->
            rate_limited res = true /\
            to_number h (JS.or_default (ratelimit_reset res) "0") = JS.Num reset) /\
         (reset * 1000 <= clock w' -> delivers res pg)) ->
      reset * 1000 - clock w + 1000
      <= timer h (JS.Num (reset * 1000 - clock w + 1000)) ->
      clock w < reset * 1000 ->
      (S (length pages) < fuel)%nat ->
      let ms := JS.Num (reset * 1000 - clock w + 1000) in
      paginate h fuel path params w
      = (Ret (concat pages ++ last),
         {| clock := clock w + timer h ms;
            trace := trace w
                     ++ [Requested (GET path (page_query params 1));
                         Logged ("Rate-limited. Sleeping " +++ JS.show_num ms +++ "ms...");
                         Slept ms]
                     ++ page_requests path params 1 (S (length pages)) |})).
Proof.
  split.
  - intros h fuel path qp page results w res Hrl. split; [|split].
    + now apply turn_rate_limited.
    + cbn [paginate_loop]. unfold bind at 1. cbn [api].
      destruct (paginate_loop_trace h) as [_ Hstep].
      apply Hstep.
    + intros r Hr ms. split.
      * now apply waitMs_of_number.
      * intros Ht. unfold waited. cbn [clock].
        unfold res in Hr. rewrite (waitMs_of_number h _ _ r Hr). fold ms. lia.
  - intros h path params pages last reset fuel w Hfull Hlast Hsrv Htimer Hw Hfuel ms.
    destruct fuel as [|fuel]; [lia|].
    unfold paginate.
    destruct (Hsrv w 0%nat (hd last pages)) as [Hrl _].
    { destruct pages; reflexivity. }
    destruct (Hrl Hw) as [Hrl1 Hnum]. clear Hrl.
    change (GET path (page_query params (1 + Z.of_nat 0)))
      with (page_request path (query_of params) 1) in Hrl1, Hnum.
    rewrite turn_rate_limited by exact Hrl1.
    assert (Hms : waitMs_of h (respond h w (page_request path (query_of params) 1)) (clock w)
                  = ms).
    { rewrite (waitMs_of_number h _ _ reset Hnum). unfold ms. f_equal. lia. }
    rewrite (paginate_pages_since h path params pages last (reset * 1000)); auto.
    + unfold waited. rewrite Hms. cbn [clock trace].
      now rewrite <- !app_assoc.
    + intros w' k pg Hc Hk. now apply (Hsrv w' k pg Hk).
    + unfold waited. rewrite Hms. cbn [clock]. fold ms in Htimer. lia.
    + lia.
Qed.

Lemma rate_limit_retries_same_page_witness :
  let path := "/repos/o/r/issues/1/events" in
  paginate (throttled_host (sample_items 250) 5) 4 path [] w0
  = (Ret (sample_items 250),
     {| clock := 6000;
        trace := [Requested (GET path [("per_page", "100"); ("page", "1")]);
                  Logged "Rate-limited. Sleeping 6000ms...";
                  Slept (JS.Num 6000);
                  Requested (GET path [("per_page", "100"); ("page", "1")]);
                  Requested (GET path [("per_page", "100"); ("page", "2")]);
                  Requested (GET path [("per_page", "100"); ("page", "3")])] |}).
Proof.
  intros path.
  apply (proj2 rate_limit_retries_same_page (throttled_host (sample_items 250) 5)
           path []
           [page_of (sample_items 250) 1; page_of (sample_items 250) 2]
           (page_of (sample_items 250) 3) 5 4%nat w0).
  - repeat apply Forall_cons; [| |apply Forall_nil]; apply Nat.leb_le; reflexivity.
  - apply Nat.ltb_lt. reflexivity.
  - intros w' k pg Hk. cbn [respond throttled_host].
    destruct (Z.ltb_spec (clock w') (5 * 1000)) as [Hc|Hc].
    + split; [intros _; split; reflexivity | intros G; lia].
    + split; [intros G; lia|]. intros _.
      destruct k as [|[|[|k]]]; cbn [nth_error app] in Hk.
      * injection Hk as <-. repeat split.
      * injection Hk as <-. repeat split.
      * injection Hk as <-. repeat split.
      * destruct k; discriminate.
  - discriminate.
  - reflexivity.
  - apply Nat.ltb_lt. reflexivity.
Defined.

(** ** A page that is not an array (C10) *)

(** C10: when a page request succeeds with a JSON body that is not an
    array, the loop of [paginate] stops there without an error and returns
    what the earlier pages gave. *)
Theorem non_array_page_ends_pagination :
  (forall (h : Host) (fuel : nat) (path : string) (qp : list (string * string))
          (page : Z) (results : list resource) (w : World) (j : json),
      let res := respond h w (page_request path qp page) in
      rate_limited res = false -> ok res = true -> parsed res = Some j ->
      (forall items, j <> JArray items) ->
      paginate_loop h (S fuel) path qp page results w
      = (Ret results, asked path qp page w))
  /\
  (forall (h : Host) (path : string) (params : list (string * string))
          (pages : list (list resource)) (j : json) (fuel : nat) (w : World),
      Forall (fun pg => (100 <= length pg)%nat) pages ->
      (forall w' k pg, nth_error pages k = Some pg ->
         delivers (respond h w' (GET path (page_query params (1 + Z.of_nat k)))) pg) ->
      (forall w',
         let res := respond h w' (GET path (page_query params (1 + Z.of_nat (length pages)))) in
         rate_limited res = false /\ ok res = true /\ parsed res = Some j) ->
      (forall items, j <> JArray items) ->
      (length pages < fuel)%nat ->
      paginate h fuel path params w
      = (Ret (concat pages),
         {| clock := clock w;
            trace := trace w ++ page_requests path params 1 (S (length pages)) |})).
Proof.
  split.
  - intros h fuel path qp page results w j res H1 H2 H3 N.
    now apply (turn_not_array h fuel path qp page results w j).
  - intros h path params pages j fuel w Hfull Hsrv Hlast N Hfuel.
    unfold paginate.
    replace fuel with (length pages + S (fuel - length pages - 1))%nat by lia.
    rewrite (loop_through_full_pages h path params (clock w)); auto.
    + destruct (Hlast {| clock := clock w;
                         trace := trace w ++ page_requests path params 1 (length pages) |})
        as (H1 & H2 & H3).
      rewrite (turn_not_array h _ path _ _ _ _ j); auto.
      unfold asked, note. cbn [clock trace app].
      now rewrite <- !app_assoc, page_requests_snoc.
    + apply Z.le_refl.
Qed.

Lemma non_array_page_ends_pagination_witness :
  let path := "/repos/o/r/issues/1/comments" in
  paginate (truncating_host (sample_items 250)) 2 path [] w0
  = (Ret (sample_items 100),
     {| clock := 0;
        trace := [Requested (GET path [("per_page", "100"); ("page", "1")]);
                  Requested (GET path [("per_page", "100"); ("page", "2")])] |}).
Proof.
  intros path.
  apply (proj2 non_array_page_ends_pagination (truncating_host (sample_items 250))
           path [] [page_of (sample_items 250) 1] (JObject blank) 2%nat w0).
  - apply Forall_cons; [apply Nat.leb_le; reflexivity | apply Forall_nil].
  - intros w' k pg Hk. destruct k as [|k]; cbn [nth_error] in Hk.
    + injection Hk as <-. repeat split.
    + destruct k; discriminate.
  - intros w'. repeat split.
  - intros items. discriminate.
  - apply Nat.ltb_lt. reflexivity.
Defined.

(** ** Failures (C8, C6) *)

Lemma run_loop_app (h : Host) (cfg : Config) (fuel : nat) (now : Z) :
  forall (pre rest : list resource) (w w1 : World) (vs : list verdict),
    run_loop h cfg fuel now pre w = (Ret vs, w1) ->
    run_loop h cfg fuel now (pre ++ rest) w
    = match run_loop h cfg fuel now rest w1 with
      | (Ret vs', w2) => (Ret (vs ++ vs'), w2)
      | other => other
      end.
Proof.
  induction pre as [|i pre IH]; intros rest w w1 vs H.
  - cbn in H. injection H as <- <-. cbn [app].
    destruct (run_loop h cfg fuel now rest w) as [[vs'|e|] w2]; reflexivity.
  - cbn [app run_loop] in *. unfold bind at 1 in H. unfold bind at 1.
    destruct (run_body h cfg fuel now i w) as [[v|e|] wi]; try discriminate.
    unfold bind at 1 in H. unfold bind at 1.
    destruct (run_loop h cfg fuel now pre wi) as [[vs0|e|] wp] eqn:E; try discriminate.
    cbn [ret] in H. injection H as <- <-.
    rewrite (IH rest wi wp vs0 E).
    destruct (run_loop h cfg fuel now rest wp) as [[vs'|e|] w2]; reflexivity.
Qed.

(** An error thrown in the turn of one candidate ends the loop there. *)
Lemma run_loop_aborts (h : Host) (cfg : Config) (fuel : nat) (now : Z)
    (pre rest : list resource) (issue : resource) (w w1 w2 : World)
    (vs : list verdict) (e : exn) :
  run_loop h cfg fuel now pre w = (Ret vs, w1) ->
  run_body h cfg fuel now issue w1 = (Throw e, w2) ->
  run_loop h cfg fuel now (pre ++ issue :: rest) w = (Throw e, w2).
Proof.
  intros Hpre Hbody. rewrite (run_loop_app h cfg fuel now pre _ w w1 vs Hpre).
  cbn [run_loop]. unfold bind at 1. now rewrite Hbody.
Qed.

Lemma run_unfold (h : Host) (cfg : Config) (fuel : nat) (w : World) :
  run h cfg fuel w
  = match listOpenIssuesWithLabel h cfg fuel (LABEL_NAME cfg) (announced cfg w) with
    | (Ret issues, w1) =>
        match run_loop h cfg fuel (clock w) issues w1 with
        | (Ret vs, w2) => (Ret vs, note (Logged "Done.") w2)
        | (Throw e, w2) => (Throw e, w2)
        | (OutOfFuel, w2) => (OutOfFuel, w2)
        end
    | (Throw e, w1) => (Throw e, w1)
    | (OutOfFuel, w1) => (OutOfFuel, w1)
    end.
Proof.
  unfold run, bind, Date_now, log, emit, note, announced. cbn [clock trace].
  rewrite <- !app_assoc. cbn [app].
  destruct (listOpenIssuesWithLabel h cfg fuel (LABEL_NAME cfg) _) as [[issues|e|] w1];
    reflexivity.
Qed.

Lemma getPull_failed (h : Host) (cfg : Config) (n : Z) (w : World) :
  let req := GET (repo_path cfg +++ "/pulls/" +++ JS.show n) [] in
  let res := respond h w req in
  ok res = false ->
  getPull h cfg n w
  = (Throw (Error ("GET pull " +++ JS.show n +++ " failed: "
                   +++ JS.show (status res) +++ " " +++ text res)),
     note (Requested req) w).
Proof.
  intros req res H. unfold getPull, bind, api. fold req. fold res. now rewrite H.
Qed.

Lemma createComment_failed (h : Host) (cfg : Config) (n : Z) (comment : string) (w : World) :
  let req := POST (repo_path cfg +++ "/issues/" +++ JS.show n +++ "/comments") comment in
  let res := respond h w req in
  ok res = false ->
  createComment h cfg n comment w
  = (Throw (Error ("POST comment on #" +++ JS.show n +++ " failed: "
                   +++ JS.show (status res) +++ " " +++ text res)),
     note (Requested req) w).
Proof.
  intros req res H. unfold createComment, bind, api. fold req. fold res. now rewrite H.
Qed.

(** C8: a response that is neither a success nor a rate-limit signal makes
    the operation throw an error whose message holds the path (or the
    number), the status and the body of the response; nothing in a turn of
    the loop catches it, so the loop ends at that candidate, the rest are
    not processed, and the process exits with status 1. *)
Theorem request_failure_aborts_run :
  (* the three operations *)
  (forall (h : Host) (fuel : nat) (path : string) (qp : list (string * string))
          (page : Z) (results : list resource) (w : World),
      let res := respond h w (page_request path qp page) in
      rate_limited res = false -> ok res = false ->
      paginate_loop h (S fuel) path qp page results w
      = (Throw (Error ("GET " +++ path +++ " failed: "
                       +++ JS.show (status res) +++ " " +++ text res)),
         asked path qp page w))
  /\
  (forall (h : Host) (cfg : Config) (n : Z) (w : World),
      let req := GET (repo_path cfg +++ "/pulls/" +++ JS.show n) [] in
      let res := respond h w req in
      ok res = false ->
      getPull h cfg n w
      = (Throw (Error ("GET pull " +++ JS.show n +++ " failed: "
                       +++ JS.show (status res) +++ " " +++ text res)),
         note (Requested req) w))
  /\
  (forall (h : Host) (cfg : Config) (n : Z) (comment : string) (w : World),
      let req := POST (repo_path cfg +++ "/issues/" +++ JS.show n +++ "/comments") comment in
      let res := respond h w req in
      ok res = false ->
      createComment h cfg n comment w
      = (Throw (Error ("POST comment on #" +++ JS.show n +++ " failed: "
                       +++ JS.show (status res) +++ " " +++ text res)),
         note (Requested req) w))
  /\
  (* no turn catches what its operations throw *)
  (forall (h : Host) (cfg : Config) (fuel : nat) (now : Z) (issue pr : resource)
          (ageDays : Z) (e : exn) (w w1 w2 : World),
      (pull_request issue = true ->
       getPull h cfg (number issue) w = (Throw e, w1) ->
       run_body h cfg fuel now issue w = (Throw e, w1))
      /\
      (pull_request issue = true ->
       getPull h cfg (number issue) w = (Ret (JObject pr), w1) ->
       base_ref pr = Some (TARGET_BRANCH cfg) ->
       listIssueEvents h cfg fuel (number issue) w1 = (Throw e, w2) ->
       run_body h cfg fuel now issue w = (Throw e, w2))
      /\
      (listComments h cfg fuel (number issue) w = (Throw e, w1) ->
       check_reminders h cfg fuel now issue pr ageDays w = (Throw e, w1))
      /\
      (createComment h cfg (number issue) (body_of cfg (mentions_of issue pr) ageDays) w
       = (Throw e, w1) ->
       remind h cfg issue pr ageDays w = (Throw e, w1)))
  /\
  (* the loop and the process *)
  (forall (h : Host) (cfg : Config) (fuel : nat) (now : Z)
          (pre rest : list resource) (issue : resource) (w w1 w2 : World)
          (vs : list verdict) (e : exn),
      run_loop h cfg fuel now pre w = (Ret vs, w1) ->
      run_body h cfg fuel now issue w1 = (Throw e, w2) ->
      run_loop h cfg fuel now (pre ++ issue :: rest) w = (Throw e, w2))
  /\
  (forall (env : Env) (cfg : Config) (h : Host) (fuel : nat) (w w1 : World) (e : exn),
      load_config env = inl cfg ->
      run h cfg fuel w = (Throw e, w1) ->
      main env h fuel w = (Some 1, note (Errored (show_exn e)) w1))
  /\
  (forall (env : Env) (cfg : Config) (h : Host) (fuel : nat)
          (pre rest : list resource) (issue : resource) (w w1 w2 w3 : World)
          (vs : list verdict) (e : exn),
      load_config env = inl cfg ->
      listOpenIssuesWithLabel h cfg fuel (LABEL_NAME cfg) (announced cfg w)
      = (Ret (pre ++ issue :: rest), w1) ->
      run_loop h cfg fuel (clock w) pre w1 = (Ret vs, w2) ->
      run_body h cfg fuel (clock w) issue w2 = (Throw e, w3) ->
      main env h fuel w = (Some 1, note (Errored (show_exn e)) w3)).
Proof.
  assert (Hmain : forall env cfg h fuel w w1 e,
             load_config env = inl cfg ->
             run h cfg fuel w = (Throw e, w1) ->
             main env h fuel w = (Some 1, note (Errored (show_exn e)) w1)).
  { intros env cfg h fuel w w1 e Hc Hr. unfold main. now rewrite Hc, Hr. }
  repeat split.
  - intros h fuel path qp page results w res H1 H2. now apply turn_failed.
  - intros h cfg n w req res H. now apply getPull_failed.
  - intros h cfg n comment w req res H. now apply createComment_failed.
  - intros Hpr Hget. unfold run_body. rewrite Hpr. cbn [negb].
    unfold bind at 1. now rewrite Hget.
  - intros Hpr Hget Hbase Hev. unfold run_body. rewrite Hpr. cbn [negb].
    unfold bind at 1. rewrite Hget. unfold bind at 1. cbn [pr_object ret].
    rewrite Hbase. cbn [is_string]. rewrite String.eqb_refl. cbn [negb].
    unfold bind at 1. now rewrite Hev.
  - intros Hc. unfold check_reminders, bind at 1. now rewrite Hc.
  - intros Hc. unfold remind, bind at 1. now rewrite Hc.
  - intros h cfg fuel now pre rest issue w w1 w2 vs e. apply run_loop_aborts.
  - exact Hmain.
  - intros env cfg h fuel pre rest issue w w1 w2 w3 vs e Hc Hl Hpre Hbody.
    apply (Hmain env cfg); auto.
    rewrite run_unfold, Hl.
    now rewrite (run_loop_aborts h cfg fuel (clock w) pre rest issue w1 w2 w3 vs e).
Qed.

Lemma request_failure_aborts_run_witness :
  main (sample_env []) failing_pull_host 5 w0
  = (Some 1,
     note (Errored "Error: GET pull 42 failed: 500 boom")
       {| clock := 0;
          trace := [Logged "Repo: o/r";
                    Logged "Label: backport-pending | Target branch: master";
                    Logged "Threshold: 7d | Re-reminder: 7d";
                    Requested (GET "/repos/o/r/issues"
                                 [("per_page", "100"); ("state", "open");
                                  ("labels", "backport-pending"); ("page", "1")]);
                    Requested (GET "/repos/o/r/pulls/42" [])] |}).
Proof.
  destruct request_failure_aborts_run as (_ & _ & _ & _ & _ & _ & H).
  set (w1 := {| clock := 0;
                trace := [Logged "Repo: o/r";
                          Logged "Label: backport-pending | Target branch: master";
                          Logged "Threshold: 7d | Re-reminder: 7d";
                          Requested (GET "/repos/o/r/issues"
                                       [("per_page", "100"); ("state", "open");
                                        ("labels", "backport-pending"); ("page", "1")])] |}).
  apply (H (sample_env []) sample_cfg failing_pull_host 5%nat
           [] [sample_issue 43 "bob"] (sample_issue 42 "alice") w0 w1 w1
           (note (Requested (GET "/repos/o/r/pulls/42" [])) w1)
           [] (Error "GET pull 42 failed: 500 boom")).
  - reflexivity.
  - reflexivity.
  - reflexivity.
  - reflexivity.
Defined.

Lemma rate_limited_not_ok (res : response) : rate_limited res = true -> ok res = false.
Proof.
  unfold rate_limited, ok. intros H. apply andb_true_iff in H as [H _].
  apply Z.eqb_eq in H. now rewrite H.
Qed.

(** C6, as the code has it: [getPull] and [createComment] have no
    rate-limit branch; a rate-limit response is a failure like any other and
    is thrown. *)
Theorem getPull_createComment_surface_rate_limit :
  (forall (h : Host) (cfg : Config) (n : Z) (w : World),
      let req := GET (repo_path cfg +++ "/pulls/" +++ JS.show n) [] in
      let res := respond h w req in
      rate_limited res = true ->
      getPull h cfg n w
      = (Throw (Error ("GET pull " +++ JS.show n +++ " failed: "
                       +++ JS.show (status res) +++ " " +++ text res)),
         note (Requested req) w))
  /\
  (forall (h : Host) (cfg : Config) (n : Z) (comment : string) (w : World),
      let req := POST (repo_path cfg +++ "/issues/" +++ JS.show n +++ "/comments") comment in
      let res := respond h w req in
      rate_limited res = true ->
      createComment h cfg n comment w
      = (Throw (Error ("POST comment on #" +++ JS.show n +++ " failed: "
                       +++ JS.show (status res) +++ " " +++ text res)),
         note (Requested req) w)).
Proof.
  split.
  - intros h cfg n w req res H. apply getPull_failed. now apply rate_limited_not_ok.
  - intros h cfg n comment w req res H. apply createComment_failed.
    now apply rate_limited_not_ok.
Qed.

Lemma getPull_createComment_surface_rate_limit_witness :
  getPull limited_pull_host sample_cfg 42 w0
  = (Throw (Error "GET pull 42 failed: 403 API rate limit exceeded"),
     {| clock := 0; trace := [Requested (GET "/repos/o/r/pulls/42" [])] |}).
Proof.
  apply (proj1 getPull_createComment_surface_rate_limit limited_pull_host sample_cfg 42 w0).
  reflexivity.
Defined.

(** The run of [limited_pull_host]: the rate-limit response to the fetch of
    pull request 42 ends the process with status 1. *)
Example rate_limited_pull_ends_run :
  fst (main (sample_env []) limited_pull_host 5 w0) = Some 1
  /\ In (Errored "Error: GET pull 42 failed: 403 API rate limit exceeded")
        (trace (snd (main (sample_env []) limited_pull_host 5 w0))).
Proof. vm_compute. intuition. Qed.

(** ** The newest event and the newest comment *)

Lemma insert_In (x y : resource) (l : list resource) :
  In y (JS.insert newest_first x l) <-> y = x \/ In y l.
Proof.
  induction l as [|z l IH]; cbn [JS.insert].
  - cbn. intuition.
  - destruct (newest_first x z); cbn [In]; [intuition|].
    rewrite IH. intuition.
Qed.

Lemma sort_In (y : resource) (l : list resource) :
  In y (JS.sort newest_first l) <-> In y l.
Proof.
  induction l as [|x l IH]; cbn [JS.sort]; [reflexivity|].
  rewrite insert_In, IH. cbn. intuition.
Qed.

Lemma insert_newest_at_head (x : resource) (l : list resource) :
  newest_at_head l -> newest_at_head (JS.insert newest_first x l).
Proof.
  destruct l as [|z l]; cbn [JS.insert newest_at_head]; intros H.
  - intros y [<-|[]]. lia.
  - unfold newest_first. destruct (Z.leb_spec (created_at z) (created_at x)) as [G|G].
    + intros y [<-|Hy]; [lia|]. specialize (H y Hy). lia.
    + intros y [<-|Hy]; [lia|]. apply insert_In in Hy as [->|Hy]; [lia|].
      apply H. now right.
Qed.

Lemma sort_newest_at_head (l : list resource) :
  newest_at_head (JS.sort newest_first l).
Proof.
  induction l as [|x l IH]; cbn [JS.sort]; [exact I|].
  now apply insert_newest_at_head.
Qed.

(** After the filter and the sort, the first element carries the latest
    time among the elements that pass the filter. *)
Lemma newest_selected (p : resource -> bool) (l : list resource) (T : Z) :
  (exists e, In e l /\ p e = true /\ created_at e = T) ->
  (forall e, In e l -> p e = true -> created_at e <= T) ->
  exists x rest,
    JS.sort newest_first (filter p l) = x :: rest
    /\ In x l /\ p x = true /\ created_at x = T.
Proof.
  intros (e & He & Hp & Ht) Hmax.
  assert (Hin : In e (JS.sort newest_first (filter p l))).
  { apply sort_In, filter_In. auto. }
  pose proof (sort_newest_at_head (filter p l)) as Hhead.
  destruct (JS.sort newest_first (filter p l)) as [|x rest] eqn:E; [destruct Hin|].
  assert (Hx : In x (filter p l)).
  { apply sort_In. rewrite E. now left. }
  apply filter_In in Hx as [Hx Hpx].
  exists x, rest. repeat split; auto.
  cbn [newest_at_head] in Hhead. specialize (Hhead e Hin).
  specialize (Hmax x Hx Hpx). lia.
Qed.

Lemma none_selected (p : resource -> bool) (l : list resource) :
  (forall e, In e l -> p e = false) ->
  JS.sort newest_first (filter p l) = [].
Proof.
  intros H. replace (filter p l) with (@nil resource); [reflexivity|].
  symmetry. induction l as [|x l IH]; [reflexivity|].
  cbn [filter]. rewrite (H x (or_introl eq_refl)). apply IH.
  intros e He. apply H. now right.
Qed.

Lemma daysBetween_floor (a b : Z) :
  unit_ms * daysBetween a b <= a - b < unit_ms * (daysBetween a b + 1).
Proof.
  unfold daysBetween.
  assert (U : 0 < unit_ms) by reflexivity.
  pose proof (Z.mul_div_le (a - b) unit_ms U).
  pose proof (Z.mul_succ_div_gt (a - b) unit_ms U).
  lia.
Qed.

(** ** What a turn can return, stage by stage *)

Section Stages.

Variable h : Host.
Variable cfg : Config.

Lemma remind_verdict issue pr ageDays w v w' :
  remind h cfg issue pr ageDays w = (Ret v, w') -> v = Posted ageDays.
Proof.
  unfold remind, bind, log, emit, sleep, ret.
  destruct (createComment h cfg _ _ w) as [[j|e|] w1]; intros H; try discriminate.
  now injection H as <- _.
Qed.

Lemma check_reminders_verdict fuel now issue pr ageDays w v w' :
  check_reminders h cfg fuel now issue pr ageDays w = (Ret v, w') ->
  (exists since, v = RemindedRecently since) \/ v = Posted ageDays.
Proof.
  unfold check_reminders, bind at 1.
  destruct (listComments h cfg fuel (number issue) w) as [[comments|e|] w1];
    try discriminate.
  destruct (ourRecent_of cfg comments) as [|last rest].
  - intros H. right. now apply remind_verdict in H.
  - destruct (JS.lt _ _).
    + unfold bind, log, emit, ret. intros H. injection H as <- _. eauto.
    + intros H. right. now apply remind_verdict in H.
Qed.

(** The turn of a pull request on the target branch, up to the events. *)
Lemma run_body_to_check_age fuel now issue pr events w w1 w2 :
  pull_request issue = true ->
  getPull h cfg (number issue) w = (Ret (JObject pr), w1) ->
  base_ref pr = Some (TARGET_BRANCH cfg) ->
  listIssueEvents h cfg fuel (number issue) w1 = (Ret events, w2) ->
  run_body h cfg fuel now issue w = check_age h cfg fuel now issue pr events w2.
Proof.
  intros Hpr Hget Hbase Hev. unfold run_body. rewrite Hpr. cbn [negb].
  unfold bind at 1. rewrite Hget. unfold bind at 1. cbn [pr_object ret].
  rewrite Hbase. cbn [is_string]. rewrite String.eqb_refl. cbn [negb].
  unfold bind at 1. now rewrite Hev.
Qed.

End Stages.

(** ** The age threshold (C1) *)

(** C1: for a pull request on the target branch whose latest event applying
    the label is at time [L], the age is the whole number of units (of
    [unit_ms] milliseconds) from [L] to [now], rounded down, and the
    candidate is skipped for its age exactly when the age is below the
    threshold; at the threshold and above the turn goes on to the comments. *)
Theorem age_threshold_check :
  forall (h : Host) (cfg : Config) (fuel : nat) (now : Z) (issue pr : resource)
         (events : list resource) (L : Z) (w w1 w2 : World),
    pull_request issue = true ->
    getPull h cfg (number issue) w = (Ret (JObject pr), w1) ->
    base_ref pr = Some (TARGET_BRANCH cfg) ->
    listIssueEvents h cfg fuel (number issue) w1 = (Ret events, w2) ->
    latest_labeled cfg events L ->
    let age := daysBetween now L in
    unit_ms * age <= now - L < unit_ms * (age + 1)
    /\ forall threshold, AFTER_DAYS cfg = JS.Num threshold ->
         (age < threshold ->
          run_body h cfg fuel now issue w
          = (Ret (TooYoung age), note (Logged (too_young_line cfg (number issue) age)) w2))
         /\ (threshold <= age ->
             run_body h cfg fuel now issue w
             = check_reminders h cfg fuel now issue pr age w2)
         /\ ((exists a w', run_body h cfg fuel now issue w = (Ret (TooYoung a), w'))
             <-> age < threshold).
Proof.
  intros h cfg fuel now issue pr events L w w1 w2 Hpr Hget Hbase Hev [Hex Hmax] age.
  split; [apply daysBetween_floor|].
  intros threshold Hth.
  rewrite (run_body_to_check_age h cfg fuel now issue pr events w w1 w2) by assumption.
  destruct (newest_selected (is_labeled cfg) events L Hex Hmax)
    as (latest & rest & Hsort & _ & _ & Hat).
  unfold check_age, labeledEvents_of. rewrite Hsort, Hat. fold age. rewrite Hth.
  cbn [JS.lt].
  assert (Hlt : age < threshold ->
                (if age <? threshold
                 then log (too_young_line cfg (number issue) age) ;; ret (TooYoung age)
                 else check_reminders h cfg fuel now issue pr age) w2
                = (Ret (TooYoung age),
                   note (Logged (too_young_line cfg (number issue) age)) w2)).
  { intros G. apply Z.ltb_lt in G. now rewrite G. }
  assert (Hge : threshold <= age ->
                (if age <? threshold
                 then log (too_young_line cfg (number issue) age) ;; ret (TooYoung age)
                 else check_reminders h cfg fuel now issue pr age) w2
                = check_reminders h cfg fuel now issue pr age w2).
  { intros G. apply Z.ltb_ge in G. now rewrite G. }
  unfold too_young_line in *. rewrite Hth in *. cbn [JS.show_num] in *.
  split; [exact Hlt|]. split; [exact Hge|]. split.
  - intros (a & w' & H). destruct (Z.lt_ge_cases age threshold) as [G|G]; [exact G|].
    rewrite (Hge G) in H. apply check_reminders_verdict in H as [[s H]|H]; discriminate.
  - intros G. exists age. eexists. exact (Hlt G).
Qed.

Lemma sample_events_latest : latest_labeled sample_cfg sample_events 1000.
Proof.
  split.
  - exists (sample_event "labeled" "backport-pending" 1000).
    repeat split. cbn. auto.
  - intros e He. cbn in He.
    destruct He as [<-|[<-|[<-|[<-|[]]]]]; cbn; intros; try discriminate; lia.
Defined.

(** One millisecond before seven units after the label: skipped; at seven
    units: on to the comments. *)
Lemma age_threshold_check_witness :
  let h := candidate_host sample_events [] in
  let issue := sample_issue 42 "alice" in
  let pr := sample_pull 42 "master" "o" ["bob"] ["core"] in
  run_body h sample_cfg 3 (1000 + 7 * unit_ms - 1) issue w0
  = (Ret (TooYoung 6), note (Logged "#42: label age 6d < 7d, skipping.") w_events)
  /\ run_body h sample_cfg 3 (1000 + 7 * unit_ms) issue w0
     = check_reminders h sample_cfg 3 (1000 + 7 * unit_ms) issue pr 7 w_events.
Proof.
  intros h issue pr. split.
  - destruct (age_threshold_check h sample_cfg 3 (1000 + 7 * unit_ms - 1) issue pr
                sample_events 1000 w0 w_pull w_events
                eq_refl eq_refl eq_refl eq_refl sample_events_latest) as [_ H].
    destruct (H 7 eq_refl) as (Hlt & _ & _).
    apply Hlt. reflexivity.
  - destruct (age_threshold_check h sample_cfg 3 (1000 + 7 * unit_ms) issue pr
                sample_events 1000 w0 w_pull w_events
                eq_refl eq_refl eq_refl eq_refl sample_events_latest) as [_ H].
    destruct (H 7 eq_refl) as (_ & Hge & _).
    apply Hge. discriminate.
Defined.

(** ** The reminder interval (C2) *)

(** C2: for a candidate that passed the age check, when some comment by an
    automated author (of type "Bot", or with "github-actions" in the login)
    holds the marker, the latest of them by time, at [T], decides: the
    candidate is skipped as recently reminded exactly when the whole units
    from [T] to [now] are fewer than the interval; at the interval and above
    the reminder is composed and posted. *)
Theorem reminder_interval_check :
  forall (h : Host) (cfg : Config) (fuel : nat) (now : Z) (issue pr : resource)
         (events : list resource) (latest : resource) (rest : list resource)
         (comments : list resource) (T : Z) (w w1 w2 w3 : World),
    pull_request issue = true ->
    getPull h cfg (number issue) w = (Ret (JObject pr), w1) ->
    base_ref pr = Some (TARGET_BRANCH cfg) ->
    listIssueEvents h cfg fuel (number issue) w1 = (Ret events, w2) ->
    labeledEvents_of cfg events = latest :: rest ->
    let age := daysBetween now (created_at latest) in
    JS.lt (JS.Num age) (AFTER_DAYS cfg) = false ->
    listComments h cfg fuel (number issue) w2 = (Ret comments, w3) ->
    latest_ours cfg comments T ->
    let since := daysBetween now T in
    unit_ms * since <= now - T < unit_ms * (since + 1)
    /\ forall interval, EVERY_DAYS cfg = JS.Num interval ->
         (since < interval ->
          run_body h cfg fuel now issue w
          = (Ret (RemindedRecently since),
             note (Logged (reminded_line cfg (number issue) since)) w3))
         /\ (interval <= since ->
             run_body h cfg fuel now issue w = remind h cfg issue pr age w3)
         /\ ((exists s w', run_body h cfg fuel now issue w = (Ret (RemindedRecently s), w'))
             <-> since < interval).
Proof.
  intros h cfg fuel now issue pr events latest rest comments T w w1 w2 w3
         Hpr Hget Hbase Hev Hsort age Hage Hcom [Hex Hmax] since.
  split; [apply daysBetween_floor|].
  intros interval Hint.
  destruct (newest_selected (is_ours cfg) comments T Hex Hmax)
    as (last & others & Hsel & _ & _ & Hat).
  assert (E : run_body h cfg fuel now issue w
              = (if since <? interval
                 then log (reminded_line cfg (number issue) since) ;;
                      ret (RemindedRecently since)
                 else remind h cfg issue pr age) w3).
  { rewrite (run_body_to_check_age h cfg fuel now issue pr events w w1 w2) by assumption.
    unfold check_age. rewrite Hsort. fold age. rewrite Hage.
    unfold check_reminders, bind at 1. rewrite Hcom.
    unfold ourRecent_of. rewrite Hsel, Hat. fold since.
    unfold reminded_line. rewrite Hint. reflexivity. }
  rewrite E. clear E.
  destruct (Z.ltb_spec since interval) as [G|G].
  - split; [intros _; reflexivity|]. split; [intros G'; lia|].
    split; [intros _; exact G|]. intros _. eexists. eexists. reflexivity.
  - split; [intros G'; lia|]. split; [intros _; reflexivity|].
    split; [|intros G'; lia].
    intros (s & w' & H). apply remind_verdict in H. discriminate.
Qed.

Lemma sample_comments_latest : latest_ours sample_cfg sample_comments 4000.
Proof.
  split.
  - exists (sample_comment (sample_user "User" "my-github-actions-runner")
              "[backport-pending-reminder] second" 4000).
    repeat split. cbn. auto.
  - intros c Hc. cbn in Hc.
    destruct Hc as [<-|[<-|[<-|[<-|[]]]]]; cbn; intros; try discriminate; lia.
Defined.

(** Labelled at 1000 ms, last reminded at 4000 ms: one millisecond before
    seven units after the reminder the candidate is skipped; at seven units
    it is reminded again. *)
Lemma reminder_interval_check_witness :
  let h := candidate_host sample_events sample_comments in
  let issue := sample_issue 42 "alice" in
  let pr := sample_pull 42 "master" "o" ["bob"] ["core"] in
  run_body h sample_cfg 3 (4000 + 7 * unit_ms - 1) issue w0
  = (Ret (RemindedRecently 6),
     note (Logged "#42: reminded 6d ago (< 7d), skipping.") w_comments)
  /\ run_body h sample_cfg 3 (4000 + 7 * unit_ms) issue w0
     = remind h sample_cfg issue pr 7 w_comments.
Proof.
  intros h issue pr. split.
  - destruct (reminder_interval_check h sample_cfg 3 (4000 + 7 * unit_ms - 1) issue pr
                sample_events (sample_event "labeled" "backport-pending" 1000)
                [sample_event "labeled" "backport-pending" 500]
                sample_comments 4000 w0 w_pull w_events w_comments
                eq_refl eq_refl eq_refl eq_refl eq_refl eq_refl eq_refl
                sample_comments_latest) as [_ H].
    destruct (H 7 eq_refl) as (Hlt & _ & _).
    apply Hlt. reflexivity.
  - destruct (reminder_interval_check h sample_cfg 3 (4000 + 7 * unit_ms) issue pr
                sample_events (sample_event "labeled" "backport-pending" 1000)
                [sample_event "labeled" "backport-pending" 500]
                sample_comments 4000 w0 w_pull w_events w_comments
                eq_refl eq_refl eq_refl eq_refl eq_refl eq_refl eq_refl
                sample_comments_latest) as [_ H].
    destruct (H 7 eq_refl) as (_ & Hge & _).
    apply Hge. discriminate.
Defined.

(** ** Candidates that are skipped before their age is looked at (C3) *)

Lemma posts_app (t1 t2 : list event_) : posts (t1 ++ t2) = posts t1 ++ posts t2.
Proof.
  induction t1 as [|e t1 IH]; [reflexivity|].
  destruct e as [[path q|path c]| | |]; cbn [app posts]; now rewrite IH.
Qed.

Lemma getPull_posts (h : Host) (cfg : Config) (n : Z) (w w1 : World) (r : result json) :
  getPull h cfg n w = (r, w1) -> posts (trace w1) = posts (trace w).
Proof.
  unfold getPull, bind, api, res_json, ret, throw.
  destruct (negb (ok _)); [|destruct (parsed _)]; intros H; injection H as _ <-;
    cbn [note trace]; rewrite posts_app; cbn; now rewrite app_nil_r.
Qed.

Lemma paginate_posts (h : Host) (fuel : nat) (path : string)
    (params : list (string * string)) (w w1 : World) (r : result (list resource)) :
  paginate h fuel path params w = (r, w1) -> posts (trace w1) = posts (trace w).
Proof.
  unfold paginate. intros H.
  destruct (proj1 (paginate_loop_trace h) fuel path (query_of params) 1 [] w)
    as (rest & Ht & Hp).
  rewrite H in Ht. cbn [snd] in Ht.
  now rewrite Ht, posts_app, Hp, app_nil_r.
Qed.

Lemma is_string_false (x : option string) (s : string) :
  x <> Some s -> is_string x s = false.
Proof.
  destruct x as [y|]; cbn; [|reflexivity].
  intros H. destruct (String.eqb_spec y s); congruence.
Qed.

(** C3: a candidate that is not a pull request, or whose base branch is not
    the target branch, or none of whose events applied the label, ends its
    turn as a skip; no comment is posted in that turn. *)
Theorem early_skips_post_nothing :
  forall (h : Host) (cfg : Config) (fuel : nat) (now : Z) (issue : resource) (w : World),
    (pull_request issue = false ->
     run_body h cfg fuel now issue w = (Ret NotPullRequest, w))
    /\
    (forall (pr : resource) (w1 : World),
        pull_request issue = true ->
        getPull h cfg (number issue) w = (Ret (JObject pr), w1) ->
        base_ref pr <> Some (TARGET_BRANCH cfg) ->
        exists w', run_body h cfg fuel now issue w = (Ret WrongBase, w')
                   /\ w' = note (Logged (wrong_base_line cfg (number issue) (base_ref pr))) w1
                   /\ posts (trace w') = posts (trace w))
    /\
    (forall (pr : resource) (events : list resource) (w1 w2 : World),
        pull_request issue = true ->
        getPull h cfg (number issue) w = (Ret (JObject pr), w1) ->
        base_ref pr = Some (TARGET_BRANCH cfg) ->
        listIssueEvents h cfg fuel (number issue) w1 = (Ret events, w2) ->
        (forall e, In e events -> is_labeled cfg e = false) ->
        exists w', run_body h cfg fuel now issue w = (Ret NoLabeledEvent, w')
                   /\ w' = note (Logged (no_event_line (number issue))) w2
                   /\ posts (trace w') = posts (trace w)).
Proof.
  intros h cfg fuel now issue w. split; [|split].
  - intros Hpr. unfold run_body. now rewrite Hpr.
  - intros pr w1 Hpr Hget Hbase.
    unfold run_body. rewrite Hpr. cbn [negb].
    unfold bind at 1. rewrite Hget. unfold bind at 1. cbn [pr_object ret].
    rewrite (is_string_false _ _ Hbase). cbn [negb].
    unfold bind, log, emit, ret. eexists. split; [reflexivity|]. split; [reflexivity|].
    cbn [note trace]. rewrite posts_app. cbn [posts]. rewrite app_nil_r.
    exact (getPull_posts h cfg _ _ _ _ Hget).
  - intros pr events w1 w2 Hpr Hget Hbase Hev Hnone.
    rewrite (run_body_to_check_age h cfg fuel now issue pr events w w1 w2) by assumption.
    unfold check_age, labeledEvents_of.
    rewrite (none_selected (is_labeled cfg) events Hnone).
    unfold bind, log, emit, ret. eexists. split; [reflexivity|]. split; [reflexivity|].
    cbn [note trace]. rewrite posts_app. cbn [posts]. rewrite app_nil_r.
    unfold listIssueEvents in Hev.
    rewrite (paginate_posts h _ _ _ _ _ _ Hev).
    exact (getPull_posts h cfg _ _ _ _ Hget).
Qed.

(** The same candidate three ways: as a plain issue, based on another
    branch, and with no event that applied the label. *)
Lemma early_skips_post_nothing_witness :
  let issue := sample_issue 42 "alice" in
  let plain :=
    {| pull_request := false; number := 42; user := user issue; body := body issue;
       created_at := 0; event := None; label_name := None; base_ref := None;
       base_owner := ""; requested_reviewers := None; requested_teams := None |} in
  let elsewhere :=
    table_host [("GET /repos/o/r/pulls/42",
                 ok_json (JObject (sample_pull 42 "7.x" "o" ["bob"] [])))] in
  run_body (candidate_host [] []) sample_cfg 3 5000000 plain w0 = (Ret NotPullRequest, w0)
  /\ (exists w', run_body elsewhere sample_cfg 3 5000000 issue w0 = (Ret WrongBase, w')
                 /\ w' = note (Logged "#42: base is 7.x, skipping (want master).") w_pull
                 /\ posts (trace w') = [])
  /\ (exists w',
        run_body (candidate_host [sample_event "labeled" "bug" 9000] []) sample_cfg 3
          5000000 issue w0 = (Ret NoLabeledEvent, w')
        /\ w' = note (Logged "#42: no labeled event found (label may be pre-existing), skipping.")
                   w_events
        /\ posts (trace w') = []).
Proof.
  intros issue plain elsewhere. split; [|split].
  - apply (proj1 (early_skips_post_nothing (candidate_host [] []) sample_cfg 3 5000000
                    plain w0)).
    reflexivity.
  - apply (proj1 (proj2 (early_skips_post_nothing elsewhere sample_cfg 3 5000000 issue w0))
             (sample_pull 42 "7.x" "o" ["bob"] []) w_pull).
    + reflexivity.
    + reflexivity.
    + discriminate.
  - apply (proj2 (proj2 (early_skips_post_nothing
                           (candidate_host [sample_event "labeled" "bug" 9000] [])
                           sample_cfg 3 5000000 issue w0))
             (sample_pull 42 "master" "o" ["bob"] ["core"])
             [sample_event "labeled" "bug" 9000] w_pull w_events).
    + reflexivity.
    + reflexivity.
    + reflexivity.
    + reflexivity.
    + intros e [<-|[]]. reflexivity.
Defined.

(** ** The mentions of a reminder (C7) *)

Lemma filter_nonempty_at (f : string -> string) (l : list string) :
  (forall x, nonempty (f x) = true) ->
  filter nonempty (map f l) = map f l.
Proof.
  intros H. induction l as [|x l IH]; [reflexivity|].
  cbn [map filter]. now rewrite H, IH.
Qed.

Lemma mention_list_sources (issue pr : resource) :
  mention_list issue pr
  = map user_mention (author_logins issue ++ reviewers_of pr)
    ++ map (team_mention pr) (teams_of pr).
Proof.
  unfold mention_list, requestedUsers_of, requestedTeams_of, reviewers_of, teams_of.
  replace (match requested_reviewers pr with
           | Some us => map (fun login => "@" +++ login) us
           | None => []
           end)
    with (map user_mention (match requested_reviewers pr with
                            | Some logins => logins
                            | None => []
                            end))
    by (destruct (requested_reviewers pr); reflexivity).
  replace (match requested_teams pr with
           | Some ts => map (fun slug => "@" +++ base_owner pr +++ "/" +++ slug) ts
           | None => []
           end)
    with (map (team_mention pr) (match requested_teams pr with
                                 | Some slugs => slugs
                                 | None => []
                                 end))
    by (destruct (requested_teams pr); reflexivity).
  rewrite map_app, <- app_assoc.
  assert (F : forall l1 l2,
             filter nonempty (map user_mention l1 ++ map (team_mention pr) l2)
             = map user_mention l1 ++ map (team_mention pr) l2).
  { intros l1 l2. rewrite filter_app, !filter_nonempty_at; auto. }
  unfold author_of, author_logins.
  destruct (login_of (user issue)) as [[|c s]|]; cbn [JS.truthy JS.or_default map app filter].
  - apply F.
  - change (nonempty ("@" +++ String c s)) with true. cbv iota. f_equal. apply F.
  - apply F.
Qed.

(** C7, as the code has it: the mention list holds one mention per source
    entry, in the order author, requested reviewers, requested teams;
    nothing is removed, so every source is mentioned and a duplicate among
    the sources is a duplicate among the mentions. *)
Theorem mentions_follow_sources :
  forall (issue pr : resource),
    mention_list issue pr
    = map user_mention (author_logins issue ++ reviewers_of pr)
      ++ map (team_mention pr) (teams_of pr)
    /\ length (mention_list issue pr)
       = (length (author_logins issue) + length (reviewers_of pr)
          + length (teams_of pr))%nat
    /\ (forall login, In login (author_logins issue ++ reviewers_of pr) ->
          In (user_mention login) (mention_list issue pr))
    /\ (forall slug, In slug (teams_of pr) ->
          In (team_mention pr slug) (mention_list issue pr))
    /\ (NoDup (mention_list issue pr) ->
        NoDup (author_logins issue ++ reviewers_of pr) /\ NoDup (teams_of pr)).
Proof.
  intros issue pr. rewrite mention_list_sources. repeat split.
  - rewrite length_app, !length_map, length_app. reflexivity.
  - intros login H. apply in_or_app. left. now apply in_map.
  - intros slug H. apply in_or_app. right. now apply in_map.
  - apply NoDup_app_remove_r in H. now apply NoDup_map_inv in H.
  - apply NoDup_app_remove_l in H. now apply NoDup_map_inv in H.
Qed.

(** A reviewer requested twice is mentioned twice. *)
Lemma duplicate_reviewer_is_mentioned_twice :
  let issue := sample_issue 42 "alice" in
  let pr := sample_pull 42 "master" "o" ["bob"; "bob"] ["core"] in
  ~ NoDup (author_logins issue ++ reviewers_of pr)
  /\ mention_list issue pr = ["@alice"; "@bob"; "@bob"; "@o/core"]
  /\ mentions_of issue pr = "@alice @bob @bob @o/core"
  /\ ~ NoDup (mention_list issue pr).
Proof.
  intros issue pr.
  assert (D : forall a c : string, ~ NoDup [a; "@bob"; "@bob"; c]).
  { intros a c H. inversion H as [|? ? _ H1]; subst.
    inversion H1 as [|? ? H2 _]; subst. apply H2. now left. }
  repeat split.
  - intros H. inversion H as [|? ? _ H1]; subst.
    inversion H1 as [|? ? H2 _]; subst. apply H2. now left.
  - apply D.
Qed.

(** ** A threshold that is not a number (C9) *)

Lemma or_default_nonempty (s d : string) : s <> "" -> JS.or_default (Some s) d = s.
Proof. destruct s; [congruence | reflexivity]. Qed.

(** C9, as the code has it: when REMIND_AFTER_DAYS is set to a string that
    is not empty and in which [parseInt] finds no number, the threshold is
    NaN; the configuration is still loaded, [age < NaN] is false for every
    age, and every candidate whose label events are dated goes on to the
    comments, whatever the age of its label. *)
Theorem unparsable_threshold_never_skips :
  forall (env : Env) (s o r : string),
    env "REMIND_AFTER_DAYS" = Some s ->
    s <> "" ->
    JS.parseInt s = JS.NaN ->
    JS.truthy (env "GITHUB_TOKEN") = true ->
    owner_repo env = (Some o, Some r) ->
    o <> "" -> r <> "" ->
    exists cfg,
      load_config env = inl cfg
      /\ AFTER_DAYS cfg = JS.NaN
      /\ (forall age, JS.lt (JS.Num age) (AFTER_DAYS cfg) = false)
      /\ (forall (h : Host) (fuel : nat) (now : Z) (issue pr : resource)
                 (events : list resource) (L : Z) (w w1 w2 : World),
             pull_request issue = true ->
             getPull h cfg (number issue) w = (Ret (JObject pr), w1) ->
             base_ref pr = Some (TARGET_BRANCH cfg) ->
             listIssueEvents h cfg fuel (number issue) w1 = (Ret events, w2) ->
             latest_labeled cfg events L ->
             run_body h cfg fuel now issue w
             = check_reminders h cfg fuel now issue pr (daysBetween now L) w2
             /\ forall a w', run_body h cfg fuel now issue w <> (Ret (TooYoung a), w')).
Proof.
  intros env s o r Hs Hne Hnan Htok Hrepo Ho Hr.
  unfold load_config. rewrite Htok, Hrepo. cbn [negb].
  assert (To : JS.truthy (Some o) = true) by (destruct o; [congruence | reflexivity]).
  assert (Tr : JS.truthy (Some r) = true) by (destruct r; [congruence | reflexivity]).
  rewrite To, Tr. cbn [negb orb].
  eexists. split; [reflexivity|]. cbn [AFTER_DAYS TARGET_BRANCH].
  rewrite Hs, (or_default_nonempty s "7" Hne), Hnan.
  split; [reflexivity|]. split; [reflexivity|].
  intros h fuel now issue pr events L w w1 w2 Hpr Hget Hbase Hev [Hex Hmax].
  match goal with
  | |- run_body h ?c _ _ _ _ = _ /\ _ =>
      set (cfg := c) in *;
      assert (E : run_body h cfg fuel now issue w
                  = check_reminders h cfg fuel now issue pr (daysBetween now L) w2)
  end.
  { rewrite (run_body_to_check_age h cfg fuel now issue pr events w w1 w2) by assumption.
    destruct (newest_selected (is_labeled cfg) events L Hex Hmax)
      as (latest & rest & Hsort & _ & _ & Hat).
    unfold check_age, labeledEvents_of. rewrite Hsort, Hat. reflexivity. }
  split; [exact E|].
  intros a w' H. rewrite E in H.
  apply check_reminders_verdict in H as [[x H]|H]; discriminate.
Qed.

(** REMIND_AFTER_DAYS=soon: a label applied the moment before is already
    old enough. *)
Lemma unparsable_threshold_never_skips_witness :
  exists cfg,
    load_config (sample_env [("REMIND_AFTER_DAYS", "soon")]) = inl cfg
    /\ AFTER_DAYS cfg = JS.NaN
    /\ run_body (candidate_host sample_events []) cfg 3 1001 (sample_issue 42 "alice") w0
       = check_reminders (candidate_host sample_events []) cfg 3 1001
           (sample_issue 42 "alice") (sample_pull 42 "master" "o" ["bob"] ["core"]) 0
           w_events.
Proof.
  destruct (unparsable_threshold_never_skips
              (sample_env [("REMIND_AFTER_DAYS", "soon")]) "soon" "o" "r"
              eq_refl ltac:(discriminate) eq_refl eq_refl eq_refl
              ltac:(discriminate) ltac:(discriminate))
    as (cfg & Hcfg & Hnan & _ & H).
  exists cfg. split; [exact Hcfg|]. split; [exact Hnan|].
  cbn in Hcfg. injection Hcfg as <-.
  apply (H (candidate_host sample_events []) 3%nat 1001 (sample_issue 42 "alice")
           (sample_pull 42 "master" "o" ["bob"] ["core"]) sample_events 1000
           w0 w_pull w_events); try reflexivity.
  exact sample_events_latest.
Defined.

(** REMIND_AFTER_DAYS set to the empty string: [parseInt] finds no number in
    it, and yet the threshold is the default 7, and a label three units old
    is skipped as too young. *)
Lemma empty_threshold_is_the_default :
  JS.parseInt "" = JS.NaN
  /\ load_config (sample_env [("REMIND_AFTER_DAYS", "")]) = inl sample_cfg
  /\ AFTER_DAYS sample_cfg = JS.Num 7
  /\ run_body (candidate_host sample_events []) sample_cfg 3 (1000 + 3 * unit_ms)
       (sample_issue 42 "alice") w0
     = (Ret (TooYoung 3), note (Logged "#42: label age 3d < 7d, skipping.") w_events).
Proof. repeat split. Qed.

(** ** Two runs from start to end *)

(** Pull request 42 on master, labelled ten units ago, never reminded: one
    comment is posted, with the marker, the age and the author in it. *)
Example run_posts_one_reminder :
  let r := main (sample_env []) (candidate_host labeled_once []) 3 ten_units_later in
  fst r = Some 0
  /\ exists comment,
       posts (trace (snd r)) = [POST "/repos/o/r/issues/42/comments" comment]
       /\ JS.includes comment "[backport-pending-reminder]" = true
       /\ JS.includes comment "for **10 days**" = true
       /\ JS.includes comment "@alice" = true.
Proof. vm_compute. split; [reflexivity|]. eexists. repeat split. Qed.

(** The same with a reminder two units ago: nothing is posted. *)
Example run_skips_recent_reminder :
  let r := main (sample_env [])
             (candidate_host labeled_once [reminder_two_units_ago]) 3 ten_units_later in
  fst r = Some 0
  /\ posts (trace (snd r)) = []
  /\ In (Logged "#42: reminded 2d ago (< 7d), skipping.") (trace (snd r)).
Proof. vm_compute. intuition. Qed.

(** * Further properties of the script *)

(** ** Numbers read from the environment *)









(** ** The repository and the token *)

Lemma split_no_slash (s : string) : no_slash s = true -> JS.split "/" s = [s].
Proof.
  induction s as [|c s IH]; [reflexivity|].
  cbn [no_slash JS.split]. intros H. apply andb_true_iff in H as [Hc Hs].
  apply negb_true_iff in Hc. rewrite Hc, (IH Hs). reflexivity.
Qed.

Lemma split_first_segment (o rest : string) :
  no_slash o = true ->
  JS.split "/" (o +++ "/" +++ rest) = o :: JS.split "/" rest.
Proof.
  induction o as [|c o IH]; [reflexivity|].
  cbn [no_slash String.append JS.split]. intros H.
  apply andb_true_iff in H as [Hc Ho]. apply negb_true_iff in Hc.
  rewrite Hc. cbn [String.append] in IH. now rewrite (IH Ho).
Qed.

Lemma owner_repo_unparsable (env : Env) :
  unparsable_repository (env "GITHUB_REPOSITORY") ->
  negb (JS.truthy (fst (owner_repo env))) || negb (JS.truthy (snd (owner_repo env))) = true.
Proof.
  unfold owner_repo. intros H.
  inversion H as [E|s Hs E|rest E|o Ho E|o rest Ho E]; clear H.
  - reflexivity.
  - destruct s as [|c s]; [reflexivity|]. cbn [JS.or_default].
    rewrite (split_no_slash _ Hs). reflexivity.
  - cbn [String.append JS.or_default JS.split]. rewrite Ascii.eqb_refl.
    destruct (JS.split "/" rest); reflexivity.
  - destruct o as [|c o]; [reflexivity|].
    change (JS.or_default (Some (String c o +++ "/")) "") with (String c o +++ "/" +++ "").
    rewrite (split_first_segment _ "" Ho). reflexivity.
  - destruct o as [|c o]; [reflexivity|].
    cbn [JS.or_default String.append].
    change (String c (o +++ String "/" (String "/" rest)))
      with (String c o +++ "/" +++ String "/" rest).
    rewrite (split_first_segment _ _ Ho). cbn [JS.split]. rewrite Ascii.eqb_refl.
    reflexivity.
Qed.

(** X2: without a token, or with a GITHUB_REPOSITORY that has no owner or no
    name around its first slash, the process prints its message and exits
    with status 1; it makes no request and prints nothing else. *)
Theorem configuration_errors_end_the_process :
  forall (env : Env) (h : Host) (fuel : nat) (w : World),
    (JS.truthy (env "GITHUB_TOKEN") = false ->
     main env h fuel w = (Some 1, note (Errored "Missing GITHUB_TOKEN") w))
    /\ (JS.truthy (env "GITHUB_TOKEN") = true ->
        unparsable_repository (env "GITHUB_REPOSITORY") ->
        main env h fuel w
        = (Some 1, note (Errored "Cannot parse OWNER/REPO from GITHUB_REPOSITORY") w)).
Proof.
  intros env h fuel w. split.
  - intros H. unfold main, load_config. now rewrite H.
  - intros H U. unfold main, load_config. rewrite H. cbn [negb].
    pose proof (owner_repo_unparsable env U) as G.
    destruct (owner_repo env) as [o r]. cbn [fst snd] in G. now rewrite G.
Qed.

Lemma configuration_errors_end_the_process_witness :
  main (fun _ => None) (candidate_host sample_events []) 3 w0
  = (Some 1, {| clock := 0; trace := [Errored "Missing GITHUB_TOKEN"] |})
  /\ main (sample_env [("GITHUB_REPOSITORY", "rally-tracks")])
       (candidate_host sample_events []) 3 w0
     = (Some 1,
        {| clock := 0; trace := [Errored "Cannot parse OWNER/REPO from GITHUB_REPOSITORY"] |}).
Proof.
  split.
  - apply (proj1 (configuration_errors_end_the_process (fun _ => None)
                    (candidate_host sample_events []) 3 w0)).
    reflexivity.
  - apply (proj2 (configuration_errors_end_the_process
                    (sample_env [("GITHUB_REPOSITORY", "rally-tracks")])
                    (candidate_host sample_events []) 3 w0)).
    + reflexivity.
    + apply (repo_no_slash "rally-tracks"). reflexivity.
Defined.

(** X3: from GITHUB_REPOSITORY = owner/name, whatever follows a second
    slash, the owner and the name are read back, and every path of the
    API client starts with /repos/owner/name. *)
Theorem repository_is_read_back :
  forall (env : Env) (o r : string),
    JS.truthy (env "GITHUB_TOKEN") = true ->
    no_slash o = true -> no_slash r = true -> o <> "" -> r <> "" ->
    (env "GITHUB_REPOSITORY" = Some (o +++ "/" +++ r)
     \/ exists more, env "GITHUB_REPOSITORY" = Some (o +++ "/" +++ r +++ "/" +++ more)) ->
    exists cfg,
      load_config env = inl cfg
      /\ OWNER cfg = o /\ REPO cfg = r
      /\ repo_path cfg = "/repos/" +++ o +++ "/" +++ r.
Proof.
  intros env o r Htok Ho Hr No Nr Hrepo.
  assert (S : exists tl, JS.split "/" (JS.or_default (env "GITHUB_REPOSITORY") "")
                         = o :: r :: tl).
  { destruct Hrepo as [E|[more E]]; rewrite E.
    - rewrite or_default_nonempty by (destruct o; [congruence | discriminate]).
      rewrite (split_first_segment o r Ho), (split_no_slash r Hr). now exists [].
    - rewrite or_default_nonempty by (destruct o; [congruence | discriminate]).
      rewrite (split_first_segment o _ Ho), (split_first_segment r more Hr). eauto. }
  destruct S as [tl S].
  unfold load_config, owner_repo. rewrite Htok, S. cbn [negb].
  destruct o as [|co o]; [congruence|]. destruct r as [|cr r]; [congruence|].
  cbn [JS.truthy negb orb]. eexists. split; [reflexivity|].
  repeat split.
Qed.

Lemma repository_is_read_back_witness :
  exists cfg,
    load_config (sample_env [("GITHUB_REPOSITORY", "elastic/rally-tracks/extra")]) = inl cfg
    /\ OWNER cfg = "elastic" /\ REPO cfg = "rally-tracks"
    /\ repo_path cfg = "/repos/elastic/rally-tracks".
Proof.
  apply (repository_is_read_back
           (sample_env [("GITHUB_REPOSITORY", "elastic/rally-tracks/extra")])
           "elastic" "rally-tracks"); try reflexivity; try discriminate.
  right. exists "extra". reflexivity.
Defined.

Lemma truthy_unset_empty (env : Env) (name : string) :
  JS.truthy (unset_empty env name) = JS.truthy (env name).
Proof. unfold unset_empty. now destruct (env name) as [[|c s]|]. Qed.

Lemma or_default_unset_empty (env : Env) (name d : string) :
  JS.or_default (unset_empty env name) d = JS.or_default (env name) d.
Proof. unfold unset_empty. now destruct (env name) as [[|c s]|]. Qed.

(** X4: a variable set to the empty string counts as not set: the
    configuration, or the error, is the one of the environment without it. *)
Theorem empty_variables_count_as_unset :
  forall env : Env, load_config (unset_empty env) = load_config env.
Proof.
  intros env. unfold load_config, owner_repo.
  now rewrite !truthy_unset_empty, !or_default_unset_empty.
Qed.

(** ** The query of a page request *)






(** ** More on [paginate] *)

Lemma requests_app (t1 t2 : list event_) : requests (t1 ++ t2) = requests t1 ++ requests t2.
Proof.
  induction t1 as [|e t1 IH]; [reflexivity|].
  destruct e; cbn [app requests]; now rewrite IH.
Qed.

(** X6: [paginate] has no bound on its retries: while the API answers the
    request for a page with the rate-limit signal, the loop asks for that
    same page again and again, and with any fuel it ends out of fuel,
    never with a result or an error. *)
Theorem endless_rate_limit_never_returns :
  forall (h : Host) (path : string) (qp : list (string * string)) (page : Z)
         (results : list resource),
    (forall w, rate_limited (respond h w (page_request path qp page)) = true) ->
    forall (fuel : nat) (w : World),
      exists w',
        paginate_loop h fuel path qp page results w = (OutOfFuel, w')
        /\ requests (trace w')
           = requests (trace w) ++ repeat (page_request path qp page) fuel.
Proof.
  intros h path qp page results H.
  induction fuel as [|fuel IH]; intros w.
  - exists w. split; [reflexivity|]. cbn [repeat]. now rewrite app_nil_r.
  - rewrite turn_rate_limited by apply H.
    destruct (IH (waited h path qp page w)) as (w' & E & R).
    exists w'. split; [exact E|]. rewrite R.
    unfold waited. cbn [trace]. rewrite requests_app. cbn [requests repeat].
    now rewrite <- app_assoc.
Qed.

Lemma endless_rate_limit_never_returns_witness :
  exists w',
    paginate always_limited_host 50 "/repos/o/r/issues" [("state", "open")] w0
    = (OutOfFuel, w')
    /\ requests (trace w')
       = repeat (GET "/repos/o/r/issues"
                   [("per_page", "100"); ("state", "open"); ("page", "1")]) 50.
Proof.
  apply (endless_rate_limit_never_returns always_limited_host "/repos/o/r/issues"
           (query_of [("state", "open")]) 1 [] (fun _ => eq_refl) 50 w0).
Defined.



(** ** The order of events and comments *)

Lemma insert_perm (x : resource) (l : list resource) :
  Permutation (JS.insert newest_first x l) (x :: l).
Proof.
  induction l as [|y l IH]; cbn [JS.insert]; [reflexivity|].
  destruct (newest_first x y); [reflexivity|].
  rewrite IH. apply perm_swap.
Qed.

Lemma insert_sorted (x : resource) (l : list resource) :
  StronglySorted not_older l -> StronglySorted not_older (JS.insert newest_first x l).
Proof.
  induction 1 as [|y l Hl IH Hy]; cbn [JS.insert].
  - repeat constructor.
  - unfold newest_first. destruct (Z.leb_spec (created_at y) (created_at x)) as [G|G].
    + constructor; [now constructor|].
      constructor; [exact G|].
      rewrite Forall_forall in *. intros z Hz. specialize (Hy z Hz).
      unfold not_older in *. lia.
    + constructor; [exact IH|].
      rewrite Forall_forall in *. intros z Hz.
      apply insert_In in Hz as [->|Hz]; [unfold not_older; lia | now apply Hy].
Qed.

Lemma insert_dated (t : Z) (x : resource) (l : list resource) :
  dated t (JS.insert newest_first x l) = dated t (x :: l).
Proof.
  unfold dated. induction l as [|y l IH]; cbn [JS.insert]; [reflexivity|].
  destruct (newest_first x y) eqn:G; [reflexivity|].
  unfold newest_first in G. apply Z.leb_gt in G.
  change (filter ?f (y :: JS.insert newest_first x l))
    with (if f y then y :: filter f (JS.insert newest_first x l)
          else filter f (JS.insert newest_first x l)).
  cbv beta. rewrite IH. cbn [filter].
  destruct (Z.eqb_spec (created_at x) t) as [Ex|Ex];
    destruct (Z.eqb_spec (created_at y) t) as [Ey|Ey]; try reflexivity; lia.
Qed.

Lemma sort_newest_first_facts :
  forall l : list resource,
    Permutation (JS.sort newest_first l) l
    /\ StronglySorted not_older (JS.sort newest_first l)
    /\ forall t, dated t (JS.sort newest_first l) = dated t l.
Proof.
  induction l as [|x l (IHp & IHs & IHd)]; cbn [JS.sort].
  - repeat split; constructor.
  - split; [|split].
    + rewrite insert_perm. now constructor.
    + now apply insert_sorted.
    + intros t. rewrite insert_dated. unfold dated in *. cbn [filter].
      now rewrite IHd.
Qed.

Lemma filter_first (p : resource -> bool) (l : list resource) (x : resource)
    (r : list resource) :
  filter p l = x :: r ->
  exists l1 l2, l = l1 ++ x :: l2 /\ (forall y, In y l1 -> p y = false)
                /\ filter p l2 = r.
Proof.
  induction l as [|y l IH]; cbn [filter]; [discriminate|].
  destruct (p y) eqn:E.
  - intros H. injection H as -> <-. exists [], l. repeat split. intros z [].
  - intros H. destruct (IH H) as (l1 & l2 & -> & H1 & H2).
    exists (y :: l1), l2. repeat split; auto.
    intros z [<-|Hz]; auto.
Qed.

(** X8: the sort by time that picks the latest label event and the latest
    marked comment keeps every selected element, puts them newest first and
    leaves elements of equal time in the order the API gave them; so of
    several with the same, latest time, the one that comes first in the list
    the API returned is the one whose time is used. *)
Theorem sort_is_newest_first_and_stable :
  forall (p : resource -> bool) (l : list resource),
    Permutation (JS.sort newest_first (filter p l)) (filter p l)
    /\ StronglySorted not_older (JS.sort newest_first (filter p l))
    /\ (forall t, dated t (JS.sort newest_first (filter p l)) = dated t (filter p l))
    /\ (forall x rest,
          JS.sort newest_first (filter p l) = x :: rest -> first_of_newest p l x).
Proof.
  intros p l.
  destruct (sort_newest_first_facts (filter p l)) as (Hperm & Hsorted & Hdated).
  repeat split; auto.
  intros x rest H. rewrite H in *.
  assert (Hmax : forall y, In y l -> p y = true -> created_at y <= created_at x).
  { intros y Hy Hp.
    assert (Hin : In y (x :: rest)).
    { apply (Permutation_in y (Permutation_sym Hperm)). apply filter_In. auto. }
    destruct Hin as [<-|Hin]; [lia|].
    apply StronglySorted_inv in Hsorted as [_ Hx].
    rewrite Forall_forall in Hx. exact (Hx y Hin). }
  specialize (Hdated (created_at x)). unfold dated in Hdated.
  cbn [filter] in Hdated. rewrite Z.eqb_refl in Hdated. symmetry in Hdated.
  assert (F : filter (fun y => p y && (created_at y =? created_at x)) l
              = x :: filter (fun y => created_at y =? created_at x) rest).
  { rewrite <- Hdated. clear. induction l as [|y l IH]; [reflexivity|].
    cbn [filter]. destruct (p y); cbn [andb filter]; [|exact IH].
    destruct (created_at y =? created_at x); now rewrite IH. }
  apply filter_first in F as (l1 & l2 & -> & H1 & _).
  assert (Px : p x = true).
  { assert (G : In x (filter p (l1 ++ x :: l2))).
    { apply (Permutation_in x Hperm). now left. }
    now apply filter_In in G. }
  exists l1, l2. repeat split; auto.
  - intros y Hy Hp. specialize (H1 y Hy). rewrite Hp in H1. cbn [andb] in H1.
    apply Z.eqb_neq in H1.
    assert (created_at y <= created_at x)
      by (apply Hmax; [apply in_or_app; now left | exact Hp]).
    lia.
  - intros y Hy Hp. apply Hmax; [|exact Hp]. apply in_or_app. right. now right.
Qed.

(** Two reminders of the bot at the same time: the first one listed. *)
Lemma sort_is_newest_first_and_stable_witness :
  let first := sample_comment (sample_user "Bot" "github-actions[bot]")
                 "[backport-pending-reminder] one" 4000 in
  let second := sample_comment (sample_user "Bot" "github-actions[bot]")
                  "[backport-pending-reminder] two" 4000 in
  first_of_newest (is_ours sample_cfg) [first; second] first.
Proof.
  intros first second.
  apply (proj2 (proj2 (proj2 (sort_is_newest_first_and_stable
                                (is_ours sample_cfg) [first; second])))
           first [second]).
  reflexivity.
Defined.

(** ** The time from which a candidate is due *)

(** X9: with threshold [t], a label applied at [L] is too young exactly
    until [L + t * unit_ms]: from that millisecond on the age check passes,
    and it goes on passing at every later time. *)
Theorem age_check_passes_from_due_time :
  forall (now L t : Z),
    (JS.lt (JS.Num (daysBetween now L)) (JS.Num t) = true <-> now < L + t * unit_ms)
    /\ (forall later, now <= later ->
          JS.lt (JS.Num (daysBetween now L)) (JS.Num t) = false ->
          JS.lt (JS.Num (daysBetween later L)) (JS.Num t) = false).
Proof.
  assert (B : forall now L t, daysBetween now L < t <-> now < L + t * unit_ms).
  { intros now L t. pose proof (daysBetween_floor now L) as F.
    assert (U : 0 < unit_ms) by reflexivity. split; intros H; nia. }
  intros now L t. cbn [JS.lt]. split.
  - rewrite Z.ltb_lt. apply B.
  - intros later Hl H. apply Z.ltb_ge in H. apply Z.ltb_ge.
    destruct (Z.lt_ge_cases (daysBetween later L) t) as [G|G]; [|exact G].
    apply B in G. assert (~ daysBetween now L < t) by lia.
    rewrite B in H0. lia.
Qed.

(** ** What the reminder says *)

Lemma append_assoc (a b c : string) : (a +++ b) +++ c = a +++ b +++ c.
Proof. induction a as [|x a IH]; cbn [String.append]; [reflexivity | now rewrite IH]. Qed.

Lemma starts_with_app (a b : string) : JS.starts_with a (a +++ b) = true.
Proof.
  induction a as [|x a IH]; [reflexivity|].
  cbn [String.append JS.starts_with]. now rewrite Ascii.eqb_refl, IH.
Qed.

Lemma starts_with_app_l (sub : string) :
  forall s q, JS.starts_with sub s = true -> JS.starts_with sub (s +++ q) = true.
Proof.
  induction sub as [|x sub IH]; intros s q H; [reflexivity|].
  destruct s as [|y s]; [discriminate|].
  cbn [String.append JS.starts_with] in *.
  apply andb_true_iff in H as [H1 H2]. now rewrite H1, (IH s q H2).
Qed.

Lemma includes_starts (s sub : string) :
  JS.starts_with sub s = true -> JS.includes s sub = true.
Proof. intros H. destruct s; cbn [JS.includes]; now rewrite H. Qed.

Lemma includes_skip (p s sub : string) :
  JS.includes s sub = true -> JS.includes (p +++ s) sub = true.
Proof.
  intros H. induction p as [|x p IH]; [exact H|].
  cbn [String.append JS.includes]. rewrite IH. apply orb_true_r.
Qed.

Lemma includes_app_l (s q sub : string) :
  JS.includes s sub = true -> JS.includes (s +++ q) sub = true.
Proof.
  induction s as [|x s IH]; intros H.
  - cbn [JS.includes] in H. rewrite orb_false_r in H.
    destruct sub; [|discriminate]. destruct q; reflexivity.
  - cbn [String.append JS.includes] in *. apply orb_true_iff in H as [H|H].
    + change (String x (s +++ q)) with (String x s +++ q).
      now rewrite (starts_with_app_l sub _ q H).
    + rewrite (IH H). apply orb_true_r.
Qed.

Lemma includes_join (m : string) (l : list string) :
  In m l -> JS.includes (JS.join " " l) m = true.
Proof.
  induction l as [|x l IH]; [intros []|].
  intros [->|H].
  - destruct l as [|y l]; cbn [JS.join].
    + apply includes_starts. clear.
      induction m as [|c m IH]; [reflexivity|].
      cbn [JS.starts_with]. now rewrite Ascii.eqb_refl, IH.
    + apply includes_starts, starts_with_app.
  - destruct l as [|y l]; [destruct H|].
    change (JS.join " " (x :: y :: l)) with (x +++ " " +++ JS.join " " (y :: l)).
    apply includes_skip, includes_skip, IH, H.
Qed.

(** X10: the body of a reminder holds the marker, every mention of the
    mention list and the age in days; posted by an account of type Bot, or
    with github-actions in its login, it is one of the comments that the
    next run counts as a reminder. *)
Theorem reminder_body_is_recognised :
  forall (cfg : Config) (issue pr : resource) (ageDays : Z),
    let comment := body_of cfg (mentions_of issue pr) ageDays in
    JS.includes comment (MARKER cfg) = true
    /\ (forall m, In m (mention_list issue pr) -> JS.includes comment m = true)
    /\ JS.includes comment ("**" +++ JS.show ageDays +++ " days**") = true
    /\ (forall c,
          body c = Some comment ->
          type_of (user c) = Some "Bot"
          \/ (exists login, login_of (user c) = Some login
                            /\ JS.includes login "github-actions" = true) ->
          is_ours cfg c = true).
Proof.
  intros cfg issue pr ageDays comment.
  assert (M : JS.includes comment (MARKER cfg) = true).
  { apply includes_starts, starts_with_app. }
  split; [exact M|]. split; [|split].
  - intros m Hm. unfold comment, body_of, mentions_of.
    do 2 apply includes_skip. apply includes_app_l. now apply includes_join.
  - unfold comment, body_of. do 9 apply includes_skip.
    match goal with
    | |- JS.includes ("` label for **" +++ _ +++ " days**." +++ ?R) _ = true =>
        change ("` label for **" +++ JS.show ageDays +++ " days**." +++ R)
          with ("` label for " +++ "**" +++ JS.show ageDays +++ " days**" +++ "." +++ R);
        apply includes_skip, includes_starts;
        replace ("**" +++ JS.show ageDays +++ " days**" +++ "." +++ R)
          with (("**" +++ JS.show ageDays +++ " days**") +++ "." +++ R)
          by (cbn [String.append]; now rewrite append_assoc)
    end.
    apply starts_with_app.
  - intros c Hb Hu. unfold is_ours. rewrite Hb. cbn [opt_includes]. fold comment.
    rewrite M, andb_true_r.
    destruct Hu as [Ht|(login & Hl & Hi)].
    + rewrite Ht. reflexivity.
    + rewrite Hl. cbn [opt_includes]. rewrite Hi. apply orb_true_r.
Qed.

Lemma reminder_body_is_recognised_witness :
  let comment :=
    body_of sample_cfg
      (mentions_of (sample_issue 42 "alice") (sample_pull 42 "master" "o" ["bob"] ["core"]))
      10 in
  is_ours sample_cfg
    (sample_comment (sample_user "Bot" "github-actions[bot]") comment 0) = true.
Proof.
  intros comment.
  destruct (reminder_body_is_recognised sample_cfg (sample_issue 42 "alice")
              (sample_pull 42 "master" "o" ["bob"] ["core"]) 10) as (_ & _ & _ & H).
  apply H; [reflexivity | left; reflexivity].
Defined.

(** ** Comments posted, turn by turn *)

Lemma reminder_body_marked (cfg : Config) (mentions : string) (ageDays : Z) :
  JS.includes (body_of cfg mentions ageDays) (MARKER cfg) = true.
Proof. apply includes_starts, starts_with_app. Qed.

Section Posting.

Variable h : Host.
Variable cfg : Config.

Lemma createComment_trace n comment w r w' :
  createComment h cfg n comment w = (r, w') ->
  w' = note (Requested (POST (comments_path cfg n) comment)) w.
Proof.
  unfold createComment, bind, api, res_json, ret, throw.
  destruct (negb (ok _)); [|destruct (parsed _)]; intros H; now injection H as _ <-.
Qed.

Lemma remind_succeeds issue pr ageDays w j :
  let comment := body_of cfg (mentions_of issue pr) ageDays in
  let res := respond h w (POST (comments_path cfg (number issue)) comment) in
  ok res = true -> parsed res = Some j ->
  remind h cfg issue pr ageDays w
  = (Ret (Posted ageDays), reminded h cfg (number issue) ageDays comment w).
Proof.
  intros comment res Hok Hj.
  unfold remind, bind at 1, createComment, bind at 1, api.
  fold (comments_path cfg (number issue)). fold comment. fold res.
  rewrite Hok. cbn [negb]. unfold res_json. rewrite Hj.
  unfold ret, bind, log, emit, sleep, note, reminded. cbn [clock trace].
  now rewrite <- !app_assoc.
Qed.

Lemma remind_posts issue pr ageDays w r w' :
  remind h cfg issue pr ageDays w = (r, w') ->
  posted_in_turn cfg issue r (posts (trace w)) (posts (trace w'))
  /\ (forall v, r = Ret v -> v = Posted ageDays).
Proof.
  intros H. split; [|intros v ->; exact (remind_verdict h cfg _ _ _ _ _ _ H)].
  unfold remind, bind at 1 in H.
  destruct (createComment h cfg _ _ w) as [[j|e|] w1] eqn:E;
    apply createComment_trace in E; subst w1.
  - unfold bind, log, emit, sleep, ret, note in H. cbn [clock trace] in H.
    injection H as <- <-. cbn [posted_in_turn trace].
    eexists. split.
    + rewrite !posts_app. cbn [posts]. now rewrite !app_nil_r.
    + apply (reminder_body_marked cfg).
  - injection H as <- <-. cbn [posted_in_turn note trace]. right. eexists.
    rewrite posts_app. reflexivity.
  - injection H as <- <-. cbn [posted_in_turn note trace]. right. eexists.
    rewrite posts_app. reflexivity.
Qed.

Lemma posted_in_turn_skip issue v before :
  (forall a, v <> Posted a) -> posted_in_turn cfg issue (Ret v) before before.
Proof. intros N. destruct v; cbn; try reflexivity. now destruct (N ageDays). Qed.

Lemma posted_in_turn_failed issue (r : result verdict) before :
  (forall v, r <> Ret v) -> posted_in_turn cfg issue r before before.
Proof. intros N. destruct r as [v|e|]; [now destruct (N v) | now left ..]. Qed.

Lemma check_reminders_posts fuel now issue pr ageDays w r w' :
  check_reminders h cfg fuel now issue pr ageDays w = (r, w') ->
  posted_in_turn cfg issue r (posts (trace w)) (posts (trace w')).
Proof.
  unfold check_reminders, bind at 1.
  destruct (listComments h cfg fuel (number issue) w) as [[comments|e|] w1] eqn:E;
    apply paginate_posts in E; rewrite <- E.
  - destruct (ourRecent_of cfg comments) as [|last rest].
    + intros H. now apply remind_posts in H.
    + destruct (JS.lt _ _).
      * unfold bind, log, emit, ret. intros H. injection H as <- <-.
        cbn [note trace]. rewrite posts_app. cbn [posts]. rewrite app_nil_r.
        apply posted_in_turn_skip. discriminate.
      * intros H. now apply remind_posts in H.
  - intros H. injection H as <- <-. apply posted_in_turn_failed; discriminate.
  - intros H. injection H as <- <-. apply posted_in_turn_failed; discriminate.
Qed.

Lemma check_age_posts fuel now issue pr events w r w' :
  check_age h cfg fuel now issue pr events w = (r, w') ->
  posted_in_turn cfg issue r (posts (trace w)) (posts (trace w')).
Proof.
  unfold check_age. destruct (labeledEvents_of cfg events) as [|latest rest].
  - unfold bind, log, emit, ret. intros H. injection H as <- <-.
    cbn [note trace]. rewrite posts_app. cbn [posts]. rewrite app_nil_r.
    apply posted_in_turn_skip. discriminate.
  - destruct (JS.lt _ _).
    + unfold bind, log, emit, ret. intros H. injection H as <- <-.
      cbn [note trace]. rewrite posts_app. cbn [posts]. rewrite app_nil_r.
      apply posted_in_turn_skip. discriminate.
    + apply check_reminders_posts.
Qed.

Lemma run_body_posts fuel now issue w r w' :
  run_body h cfg fuel now issue w = (r, w') ->
  posted_in_turn cfg issue r (posts (trace w)) (posts (trace w')).
Proof.
  unfold run_body. destruct (negb (pull_request issue)).
  - intros H. injection H as <- <-. apply posted_in_turn_skip. discriminate.
  - unfold bind at 1.
    destruct (getPull h cfg (number issue) w) as [[j|e|] w1] eqn:E;
      apply getPull_posts in E; rewrite <- E.
    2,3: intros H; injection H as <- <-; apply posted_in_turn_failed; discriminate.
    unfold bind at 1.
    destruct j as [| |items|o]; cbn [pr_object ret throw].
    1: intros H; injection H as <- <-; apply posted_in_turn_failed; discriminate.
    1,2: cbn [blank base_ref is_string negb]; unfold bind, log, emit, ret;
         intros H; injection H as <- <-; cbn [note trace];
         rewrite posts_app; cbn [posts]; rewrite app_nil_r;
         apply posted_in_turn_skip; discriminate.
    destruct (negb (is_string (base_ref o) (TARGET_BRANCH cfg))).
    + unfold bind, log, emit, ret. intros H. injection H as <- <-.
      cbn [note trace]. rewrite posts_app. cbn [posts]. rewrite app_nil_r.
      apply posted_in_turn_skip. discriminate.
    + unfold bind at 1.
      destruct (listIssueEvents h cfg fuel (number issue) w1) as [[events|e|] w2] eqn:E2;
        apply paginate_posts in E2; rewrite <- E2.
      * apply check_age_posts.
      * intros H. injection H as <- <-. apply posted_in_turn_failed; discriminate.
      * intros H. injection H as <- <-. apply posted_in_turn_failed; discriminate.
Qed.

End Posting.

Lemma run_loop_posts (h : Host) (cfg : Config) (fuel : nat) (now : Z) :
  forall (issues : list resource) (w w' : World) (vs : list verdict),
    run_loop h cfg fuel now issues w = (Ret vs, w') ->
    length vs = length issues
    /\ length (posts (trace w')) = (length (posts (trace w)) + count_posted vs)%nat.
Proof.
  induction issues as [|issue issues IH]; intros w w' vs H.
  - cbn in H. injection H as <- <-. cbn. split; [reflexivity | lia].
  - cbn [run_loop] in H. unfold bind at 1 in H.
    destruct (run_body h cfg fuel now issue w) as [[v|e|] w1] eqn:E; try discriminate.
    unfold bind at 1 in H.
    destruct (run_loop h cfg fuel now issues w1) as [[vs1|e|] w2] eqn:E1; try discriminate.
    cbn [ret] in H. injection H as <- <-.
    destruct (IH w1 w2 vs1 E1) as [Hl Hp].
    apply run_body_posts in E. split; [cbn [length]; now rewrite Hl|].
    rewrite Hp. destruct v; cbn [posted_in_turn count_posted] in *;
      try (rewrite E; lia).
    destruct E as (comment & -> & _). rewrite length_app. cbn [length]. lia.
Qed.

(** X11: a turn posts a comment only when it ends as a reminder: after a
    skip the comments posted are those posted before, after a reminder there
    is one more, on the issue of the turn and with the marker in its body,
    and a turn that fails has posted at most one; over a whole loop there
    is one verdict per candidate and one comment per reminder. *)
Theorem comments_posted_match_verdicts :
  forall (h : Host) (cfg : Config) (fuel : nat) (now : Z),
    (forall (issue : resource) (w w' : World) (r : result verdict),
        run_body h cfg fuel now issue w = (r, w') ->
        posted_in_turn cfg issue r (posts (trace w)) (posts (trace w')))
    /\ (forall (issues : list resource) (w w' : World) (vs : list verdict),
          run_loop h cfg fuel now issues w = (Ret vs, w') ->
          length vs = length issues
          /\ length (posts (trace w'))
             = (length (posts (trace w)) + count_posted vs)%nat).
Proof.
  intros h cfg fuel now. split.
  - intros issue w w' r. apply run_body_posts.
  - apply run_loop_posts.
Qed.

(** Pull request 42, due and never reminded, after a plain issue. *)
Lemma comments_posted_match_verdicts_witness :
  let h := candidate_host labeled_once [] in
  let plain :=
    {| pull_request := false; number := 7; user := None; body := None; created_at := 0;
       event := None; label_name := None; base_ref := None; base_owner := "";
       requested_reviewers := None; requested_teams := None |} in
  exists w',
    run_loop h sample_cfg 3 (10 * unit_ms) [plain; sample_issue 42 "alice"] w0
    = (Ret [NotPullRequest; Posted 10], w')
    /\ length (posts (trace w')) = 1%nat.
Proof.
  intros h plain. eexists. split; [reflexivity|].
  apply (proj2 (comments_posted_match_verdicts h sample_cfg 3 (10 * unit_ms))
           [plain; sample_issue 42 "alice"] w0 _ [NotPullRequest; Posted 10]).
  reflexivity.
Defined.

(** X12: a candidate that passed the age check and has no comment that is
    both marked and of an automated author (comments of people who quote the
    marker do not count) is reminded: when the API accepts the comment, the
    turn ends with the request, one log line and a pause of 200 ms. *)
Theorem candidate_never_reminded_is_reminded :
  forall (h : Host) (cfg : Config) (fuel : nat) (now : Z) (issue pr : resource)
         (events : list resource) (latest : resource) (rest : list resource)
         (comments : list resource) (j : json) (w w1 w2 w3 : World),
    pull_request issue = true ->
    getPull h cfg (number issue) w = (Ret (JObject pr), w1) ->
    base_ref pr = Some (TARGET_BRANCH cfg) ->
    listIssueEvents h cfg fuel (number issue) w1 = (Ret events, w2) ->
    labeledEvents_of cfg events = latest :: rest ->
    let age := daysBetween now (created_at latest) in
    JS.lt (JS.Num age) (AFTER_DAYS cfg) = false ->
    listComments h cfg fuel (number issue) w2 = (Ret comments, w3) ->
    (forall c, In c comments -> is_ours cfg c = false) ->
    let comment := body_of cfg (mentions_of issue pr) age in
    let res := respond h w3 (POST (comments_path cfg (number issue)) comment) in
    ok res = true -> parsed res = Some j ->
    run_body h cfg fuel now issue w
    = (Ret (Posted age), reminded h cfg (number issue) age comment w3).
Proof.
  intros h cfg fuel now issue pr events latest rest comments j w w1 w2 w3
         Hpr Hget Hbase Hev Hsort age Hage Hcom Hnone comment res Hok Hj.
  rewrite (run_body_to_check_age h cfg fuel now issue pr events w w1 w2) by assumption.
  unfold check_age. rewrite Hsort. fold age. rewrite Hage.
  unfold check_reminders, bind at 1. rewrite Hcom.
  unfold ourRecent_of. rewrite (none_selected (is_ours cfg) comments Hnone).
  now apply remind_succeeds with (j := j).
Qed.

Lemma candidate_never_reminded_is_reminded_witness :
  let quoted := sample_comment (sample_user "User" "carol")
                  "see [backport-pending-reminder] above" 9000 in
  let h := candidate_host labeled_once [quoted] in
  let issue := sample_issue 42 "alice" in
  let pr := sample_pull 42 "master" "o" ["bob"] ["core"] in
  run_body h sample_cfg 3 (10 * unit_ms) issue w0
  = (Ret (Posted 10),
     reminded h sample_cfg 42 10 (body_of sample_cfg (mentions_of issue pr) 10) w_comments).
Proof.
  intros quoted h issue pr.
  apply (candidate_never_reminded_is_reminded h sample_cfg 3 (10 * unit_ms) issue pr
           labeled_once (sample_event "labeled" "backport-pending" 0) [] [quoted]
           (JObject blank) w0 w_pull w_events w_comments); try reflexivity.
  intros c [<-|[]]. reflexivity.
Defined.

(** ** Candidates that cost nothing, and pull requests that are no objects *)

(** X13: plain issues among the candidates cost no request and leave no
    line in the log: a loop over plain issues only returns at once, and a
    run whose candidates are all plain issues ends with status 0 right
    after the list was fetched. *)
Theorem plain_issues_cost_nothing :
  forall (h : Host) (cfg : Config) (fuel : nat) (issues : list resource),
    (forall i, In i issues -> pull_request i = false) ->
    (forall now w,
        run_loop h cfg fuel now issues w = (Ret (map (fun _ => NotPullRequest) issues), w))
    /\ (forall env w w1,
          load_config env = inl cfg ->
          listOpenIssuesWithLabel h cfg fuel (LABEL_NAME cfg) (announced cfg w)
          = (Ret issues, w1) ->
          main env h fuel w = (Some 0, note (Logged "Done.") w1)).
Proof.
  intros h cfg fuel issues Hplain.
  assert (L : forall now w,
             run_loop h cfg fuel now issues w
             = (Ret (map (fun _ => NotPullRequest) issues), w)).
  { intros now w. induction issues as [|i issues IH]; [reflexivity|].
    cbn [run_loop map]. unfold bind at 1, run_body.
    rewrite (Hplain i (or_introl eq_refl)). cbn [negb ret].
    unfold bind. rewrite IH; [reflexivity|].
    intros i' Hi'. apply Hplain. now right. }
  split; [exact L|].
  intros env w w1 Hcfg Hlist. unfold main. rewrite Hcfg, run_unfold, Hlist, L.
  reflexivity.
Qed.

Lemma plain_issues_cost_nothing_witness :
  let plain n :=
    {| pull_request := false; number := n; user := None; body := None; created_at := 0;
       event := None; label_name := None; base_ref := None; base_owner := "";
       requested_reviewers := None; requested_teams := None |} in
  let h := table_host [("GET /repos/o/r/issues", ok_json (JArray [plain 1; plain 2]))] in
  run_loop h sample_cfg 3 0 [plain 1; plain 2] w0 = (Ret [NotPullRequest; NotPullRequest], w0).
Proof.
  intros plain h.
  apply (proj1 (plain_issues_cost_nothing h sample_cfg 3 [plain 1; plain 2]
                  ltac:(intros i [<-|[<-|[]]]; reflexivity))).
Defined.

(** X14: when the body of the pull request is JSON but no object, null
    makes the turn throw a TypeError, which ends the run; any other value has
    no base, so the candidate is skipped as based on [undefined]. *)
Theorem pull_that_is_no_object :
  forall (h : Host) (cfg : Config) (fuel : nat) (now : Z) (issue : resource)
         (j : json) (w w1 : World),
    pull_request issue = true ->
    getPull h cfg (number issue) w = (Ret j, w1) ->
    (j = JNull -> run_body h cfg fuel now issue w = (Throw TypeError, w1))
    /\ (j = JScalar \/ (exists items, j = JArray items) ->
        run_body h cfg fuel now issue w
        = (Ret WrongBase, note (Logged (wrong_base_line cfg (number issue) None)) w1)).
Proof.
  intros h cfg fuel now issue j w w1 Hpr Hget. split.
  - intros ->. unfold run_body. rewrite Hpr. cbn [negb].
    unfold bind at 1. rewrite Hget. reflexivity.
  - intros Hj. unfold run_body. rewrite Hpr. cbn [negb].
    unfold bind at 1. rewrite Hget.
    destruct Hj as [->|[items ->]]; reflexivity.
Qed.

Lemma pull_that_is_no_object_witness :
  let h := table_host [("GET /repos/o/r/pulls/42", ok_json JNull)] in
  run_body h sample_cfg 3 0 (sample_issue 42 "alice") w0 = (Throw TypeError, w_pull).
Proof.
  intros h.
  apply (proj1 (pull_that_is_no_object h sample_cfg 3 0 (sample_issue 42 "alice")
                  JNull w0 w_pull eq_refl eq_refl)).
  reflexivity.
Defined.

(** ** An interval that is not a number *)

(** X15: when REMIND_EVERY_DAYS is set to a string that is not empty and in
    which [parseInt] finds no number, the interval is NaN and no comparison
    with it holds: earlier reminders, however recent, never hold a new one
    back, and every candidate that passed the age check is reminded again. *)
Theorem unparsable_interval_never_holds_back :
  forall (env : Env) (cfg : Config) (s : string),
    load_config env = inl cfg ->
    env "REMIND_EVERY_DAYS" = Some s -> s <> "" -> JS.parseInt s = JS.NaN ->
    EVERY_DAYS cfg = JS.NaN
    /\ forall (h : Host) (fuel : nat) (now : Z) (issue pr : resource) (ageDays : Z)
              (comments : list resource) (w w1 : World),
         listComments h cfg fuel (number issue) w = (Ret comments, w1) ->
         check_reminders h cfg fuel now issue pr ageDays w
         = remind h cfg issue pr ageDays w1.
Proof.
  intros env cfg s Hcfg Hs Hne Hnan.
  assert (E : EVERY_DAYS cfg = JS.NaN).
  { unfold load_config in Hcfg.
    destruct (negb (JS.truthy (env "GITHUB_TOKEN"))); [discriminate|].
    destruct (owner_repo env) as [o r].
    destruct (negb (JS.truthy o) || negb (JS.truthy r)); [discriminate|].
    injection Hcfg as <-. cbn [EVERY_DAYS].
    now rewrite Hs, (or_default_nonempty s "7" Hne). }
  split; [exact E|].
  intros h fuel now issue pr ageDays comments w w1 Hcom.
  unfold check_reminders, bind at 1. rewrite Hcom, E.
  destruct (ourRecent_of cfg comments); reflexivity.
Qed.

(** REMIND_EVERY_DAYS=weekly: reminded two units ago, and reminded again. *)
Lemma unparsable_interval_never_holds_back_witness :
  exists cfg,
    load_config (sample_env [("REMIND_EVERY_DAYS", "weekly")]) = inl cfg
    /\ check_reminders (candidate_host labeled_once [reminder_two_units_ago]) cfg 3
         (10 * unit_ms + 17) (sample_issue 42 "alice")
         (sample_pull 42 "master" "o" ["bob"] ["core"]) 10 w_events
       = remind (candidate_host labeled_once [reminder_two_units_ago]) cfg
           (sample_issue 42 "alice") (sample_pull 42 "master" "o" ["bob"] ["core"]) 10
           w_comments.
Proof.
  eexists. split; [reflexivity|].
  apply (proj2 (unparsable_interval_never_holds_back
                  (sample_env [("REMIND_EVERY_DAYS", "weekly")]) _ "weekly"
                  eq_refl eq_refl ltac:(discriminate) eq_refl)
           (candidate_host labeled_once [reminder_two_units_ago]) 3%nat
           (10 * unit_ms + 17) (sample_issue 42 "alice")
           (sample_pull 42 "master" "o" ["bob"] ["core"]) 10
           [reminder_two_units_ago]).
  reflexivity.
Defined.
